(** * paysage matrix backends: numpy/numexpr/numba facade and torch facade

    The two source files [python_backend/matrix.py] and
    [pytorch_backend/matrix.py] are flat tables of wrappers around library
    calls.  Every function of the two files is embedded as a program over an
    interface of library calls.  The calls used by the mixing functions, the
    reductions, the products and the shape functions ([lib]) are given a
    meaning on a store of array objects by a handler ([lib_h]): numpy and
    numexpr calls follow those libraries, torch calls follow torch, also
    where the two differ (exceptions, element types, what is a view).  The
    remaining calls ([ext]) are left to any handler that reads and writes
    the store only.  The three numba kernels of the python backend are
    embedded as programs over unboxed rows. *)

From Stdlib Require Import ZArith List Lia String Reals Lra.
From stdpp Require Import base list.

Set Implicit Arguments.
Local Open Scope Z_scope.

(** ** Scalars

    The float32 operations the code relies on.  Theorems that hold for any
    interpretation of the operations are stated over the class; algebraic
    laws are taken as hypotheses exactly where a proof needs them. *)

Class Scalar (F : Type) := {
  fzero : F;
  fone : F;
  feps : F;
  fadd : F -> F -> F;
  fsub : F -> F -> F;
  fmul : F -> F -> F;
  fdiv : F -> F -> F;
  fsqrt : F -> F;
  fmax : F -> F -> F;
  fmin : F -> F -> F;
  feqb : F -> F -> bool;
  of_Z : Z -> F
}.

(** Python exceptions that the modelled code can raise. *)
Inductive exn :=
| NotImplementedError
| TypeError
| ValueError
| IndexError
| KeyError
| ZeroDivisionError
| RuntimeError.

Definition res (A : Type) : Type := (exn + A)%type.

Definition res_bind {A B} (r : res A) (f : A -> res B) : res B :=
  match r with inl e => inl e | inr a => f a end.

Fixpoint res_mapM {A B} (f : A -> res B) (l : list A) : res (list B) :=
  match l with
  | [] => inr []
  | a :: l' =>
      res_bind (f a) (fun b => res_bind (res_mapM f l') (fun bs => inr (b :: bs)))
  end.

Inductive dtype := Float32 | Float64 | Bool | UInt8 | Int32 | Int64.

#[global] Instance dtype_eq_dec : EqDecision dtype.
Proof. solve_decision. Defined.

Section Model.

Context {F : Type} `{Scalar F}.

(** [EPSILON = numpy.finfo(numpy.float32).eps], both modules. *)
Definition EPSILON : F := feps.

(** ** Arrays

    An ndarray or a torch tensor: element type tag, shape, and the elements
    in row-major order. *)
Record tensor := Tensor {
  t_dtype : dtype;
  t_shape : list nat;
  t_data : list F
}.

Definition numel (s : list nat) : nat := fold_right Nat.mul 1%nat s.

Definition wf_tensor (t : tensor) : Prop :=
  length (t_data t) = numel (t_shape t).

(** *** Row-major blocks *)

(** [chunks k n l]: the first [k] consecutive blocks of [n] elements. *)
Fixpoint chunks (k n : nat) (l : list F) : list (list F) :=
  match k with
  | O => []
  | S k' => take n l :: chunks k' n (drop n l)
  end.

(** [cols m rows]: column [j] of a list of rows, for [j < m]. *)
Definition cols (m : nat) (rows : list (list F)) : list (list F) :=
  map (fun j => map (fun r => nth j r fzero) rows) (seq 0 m).

Definition fsum (l : list F) : F := fold_left fadd l fzero.
Definition fprod (l : list F) : F := fold_left fmul l fone.
Definition dotv (a b : list F) : F := fsum (zip_with fmul a b).

(** *** Reductions *)

Inductive redop :=
| RMax | RMin | RMean | RVar (ddof : nat) | RStd (ddof : nat)
| RSum | RProd | RAny | RAll | RArgmax | RArgmin.

Definition fmean (l : list F) : F := fdiv (fsum l) (of_Z (Z.of_nat (length l))).

Definition fvar (ddof : nat) (l : list F) : F :=
  let m := fmean l in
  fdiv (fsum (map (fun x => fmul (fsub x m) (fsub x m)) l))
       (of_Z (Z.of_nat (length l) - Z.of_nat ddof)).

Definition of_bool (b : bool) : F := if b then fone else fzero.

Fixpoint index_of (p : F -> bool) (l : list F) (i : Z) : Z :=
  match l with
  | [] => 0
  | x :: l' => if p x then i else index_of p l' (i + 1)
  end.

Definition red_fun (op : redop) (l : list F) : res F :=
  match op with
  | RMax => match l with [] => inl ValueError | x :: l' => inr (fold_left fmax l' x) end
  | RMin => match l with [] => inl ValueError | x :: l' => inr (fold_left fmin l' x) end
  | RMean => inr (fmean l)
  | RVar ddof => inr (fvar ddof l)
  | RStd ddof => inr (fsqrt (fvar ddof l))
  | RSum => inr (fsum l)
  | RProd => inr (fprod l)
  | RAny => inr (of_bool (existsb (fun x => negb (feqb x fzero)) l))
  | RAll => inr (of_bool (forallb (fun x => negb (feqb x fzero)) l))
  | RArgmax =>
      match l with
      | [] => inl ValueError
      | x :: l' => inr (of_Z (index_of (feqb (fold_left fmax l' x)) l 0))
      end
  | RArgmin =>
      match l with
      | [] => inl ValueError
      | x :: l' => inr (of_Z (index_of (feqb (fold_left fmin l' x)) l 0))
      end
  end.

Definition red_dtype (op : redop) (d : dtype) : dtype :=
  match op with
  | RAny | RAll => Bool
  | RArgmax | RArgmin => Int64
  | _ => d
  end.

(** Reduction of the flat data of an array of shape [s] along axis [d]:
    one result per (outer index, inner index). *)
Definition reduce_data (op : redop) (s : list nat) (d : nat) (data : list F)
  : res (list F) :=
  let outer := numel (take d s) in
  let len := nth d s 0%nat in
  let inner := numel (drop (S d) s) in
  res_bind
    (res_mapM (fun blk => res_mapM (red_fun op) (cols inner (chunks len inner blk)))
              (chunks outer (len * inner) data))
    (fun rows => inr (concat rows)).

(** Reduction along one axis; [keepdims] keeps the reduced axis with
    length one, otherwise the axis is removed. *)
Definition reduce_axis (op : redop) (keepdims : bool) (d : nat) (t : tensor)
  : res tensor :=
  if decide (d < length (t_shape t))%nat then
    res_bind (reduce_data op (t_shape t) d (t_data t)) (fun data =>
      inr (Tensor (red_dtype op (t_dtype t))
                  (if keepdims then <[d := 1%nat]> (t_shape t) else delete d (t_shape t))
                  data))
  else inl ValueError.

(** Reduction over all elements. *)
Definition reduce_all (op : redop) (t : tensor) : res F :=
  red_fun op (t_data t).

(** *** Elementwise operations *)

Definition tmap (f : F -> F) (t : tensor) : tensor :=
  Tensor (t_dtype t) (t_shape t) (map f (t_data t)).

Definition tzip (f : F -> F -> F) (a b : tensor) : res tensor :=
  if decide (t_shape a = t_shape b) then
    inr (Tensor (t_dtype a) (t_shape a) (zip_with f (t_data a) (t_data b)))
  else inl ValueError.

Definition full (dt : dtype) (s : list nat) (x : F) : tensor :=
  Tensor dt s (replicate (numel s) x).

(** *** Matrices *)

Definition rows_of (t : tensor) : list (list F) :=
  match t_shape t with
  | [n; m] => chunks n m (t_data t)
  | _ => []
  end.

Definition matmul (a b : tensor) : res tensor :=
  match t_shape a, t_shape b with
  | [n; k], [k'; m] =>
      if decide (k = k') then
        let bc := cols m (chunks k m (t_data b)) in
        inr (Tensor (t_dtype a) [n; m]
               (concat (map (fun r => map (dotv r) bc) (chunks n k (t_data a)))))
      else inl ValueError
  | _, _ => inl ValueError
  end.

Definition transpose2 (a : tensor) : res tensor :=
  match t_shape a with
  | [n; m] => inr (Tensor (t_dtype a) [m; n] (concat (cols m (chunks n m (t_data a)))))
  | _ => inl ValueError
  end.

(** The data of an array of shape [s] with its axes in reverse order: the
    blocks along the first axis, each with its own axes reversed, are read
    position by position. *)
Fixpoint transpose_data (s : list nat) (d : list F) : list F :=
  match s with
  | [] => d
  | n :: s' => concat (cols (numel s') (map (transpose_data s') (chunks n (numel s') d)))
  end.

End Model.

Arguments tensor F : clear implicits.

(** ** Programs over library calls *)

(** A wrapper body: it returns, raises, or calls the library and continues
    with the call's result. *)
Inductive prog (E : Type -> Type) (A : Type) : Type :=
| Ret (a : A)
| Throw (e : exn)
| Vis (X : Type) (ev : E X) (k : X -> prog E A).

Arguments Ret {E A} a.
Arguments Throw {E A} e.
Arguments Vis {E A X} ev k.

Fixpoint bind {E A B} (p : prog E A) (f : A -> prog E B) : prog E B :=
  match p with
  | Ret a => f a
  | Throw e => Throw e
  | Vis ev k => Vis ev (fun x => bind (k x) f)
  end.

(** A single library call whose result is returned unchanged. *)
Definition call {E X} (ev : E X) : prog E X := Vis ev Ret.

Notation "'let*' x ':=' c 'in' k" := (bind c (fun x => k))
  (at level 10, x pattern, c at level 100, k at level 200).

(** Python's [raise v] where [v] is a string and not an exception. *)
Definition raise_str {E A} (s : string) : prog E A := Throw TypeError.

(** Loops of the kernels: [for x in xs: acc = body acc x]. *)
Fixpoint for_each {E A B} (xs : list B) (acc : A) (body : A -> B -> prog E A)
  : prog E A :=
  match xs with
  | [] => Ret acc
  | x :: xs' => let* acc' := body acc x in for_each xs' acc' body
  end.

(** [range(a, b)] for integers. *)
Definition range (a b : Z) : list Z :=
  map (fun k => a + Z.of_nat k) (seq 0 (Z.to_nat (b - a))).

(** Python indexing of a sequence: negative indices count from the end,
    anything else out of range raises IndexError. *)
Definition getitem {E A} (l : list A) (i : Z) : prog E A :=
  let j := if i <? 0 then Z.of_nat (length l) + i else i in
  if j <? 0 then Throw IndexError
  else match l !! Z.to_nat j with
       | Some a => Ret a
       | None => Throw IndexError
       end.

(** Array objects are passed by reference: an index into the store. *)
Abbreviation tref := nat.

Section Library.

Context {F : Type} `{Scalar F}.

(** The store of array objects and the state of numpy's global random
    generator (its output sequence and the position in it).

    An array object is a view when it has no memory of its own: [views]
    records, for a view, the object that owns the memory it reads and writes
    and whether its axes are in reverse order with respect to the owner's.
    An object without an entry owns its memory.  [heap] gives every object,
    view or not, its current contents. *)
Record world := World {
  heap : list (tensor F);
  views : list (tref * (tref * bool));
  rng_seq : nat -> nat;
  rng_pos : nat
}.

Definition set_heap (w : world) (h : list (tensor F)) : world :=
  World h (views w) (rng_seq w) (rng_pos w).

Fixpoint view_of (vs : list (tref * (tref * bool))) (x : tref) : option (tref * bool) :=
  match vs with
  | [] => None
  | (v, b) :: vs' => if Nat.eqb v x then Some b else view_of vs' x
  end.

(** The object whose memory [x] reads and writes. *)
Definition owner (w : world) (x : tref) : tref :=
  match view_of (views w) x with
  | Some (b, _) => b
  | None => x
  end.

(** Whether the axes of [x] are in reverse order with respect to its
    owner's. *)
Definition reversed (w : world) (x : tref) : bool :=
  match view_of (views w) x with
  | Some (_, r) => r
  | None => false
  end.

(** [x] and [y] read and write the same memory. *)
Definition shares (w : world) (x y : tref) : Prop := owner w x = owner w y.

(** numexpr expressions, as [ne.evaluate] parses its string argument:
    variables, integer constants, [+], [-], [*] and the quotient by a square
    root [a / sqrt(b)], the only quotient of the module. *)
Inductive nexpr :=
| NVar (name : string)
| NConst (z : Z)
| NAdd (a b : nexpr)
| NSub (a b : nexpr)
| NMul (a b : nexpr)
| NDivSqrt (a b : nexpr).

(** A variable of the calling frame seen by [ne.evaluate]: a float32
    number or an array object. *)
Inductive operand := OScalar (x : F) | OArray (r : tref).

(** The library interface: numpy / numexpr calls of the python backend and
    torch calls of the pytorch backend. *)
Inductive lib : Type -> Type :=
(* numpy *)
| np_float32 (x : F) : lib F
| np_shape (t : tref) : lib (list nat)
| np_ndim (t : tref) : lib nat
| np_dtype (t : tref) : lib dtype
| np_zeros (s : list nat) (dt : dtype) : lib tref
| np_ones (s : list nat) (dt : dtype) : lib tref
| np_transpose (t : tref) : lib tref
| np_radd_scalar (c : F) (t : tref) : lib tref
| np_div_scalar (t : tref) (c : F) : lib tref
| np_mul (a b : tref) : lib tref
| np_sum (t : tref) : lib F
| np_reduce (op : redop) (t : tref) (axis : option nat) (keepdims : bool) : lib tref
| np_dot (a b : tref) : lib tref
| np_astype (t : tref) (dt : dtype) : lib tref
| np_arange (n : Z) : lib (list Z)
| np_random_choice (a : list Z) (size : Z) : lib (list Z)
| ne_evaluate (e : nexpr) (env : list (string * operand)) (out : option tref) : lib tref
(* torch *)
| torch_size (t : tref) : lib (list nat)
| torch_ndimension (t : tref) : lib nat
| torch_type (t : tref) : lib string
| torch_t (t : tref) : lib tref
| torch_zeros (s : list nat) : lib tref
| torch_ones (s : list nat) : lib tref
| torch_mul_ (x : tref) (c : F) : lib tref
| torch_mul_scalar (x : tref) (c : F) : lib tref
| torch_mul (x y : tref) : lib tref
| torch_add_ (x y : tref) : lib tref
| torch_div_ (x y : tref) : lib tref
| torch_div_scalar (x : tref) (c : F) : lib tref
| torch_radd_scalar (c : F) (x : tref) : lib tref
| torch_sqrt (x : tref) : lib tref
| torch_eq_scalar (x : tref) (c : F) : lib tref
| torch_reduce_all (op : redop) (x : tref) : lib F
| torch_reduce_dim (op : redop) (x : tref) (dim : nat) : lib tref
| torch_extremum_dim (op : redop) (x : tref) (dim : nat) : lib (tref * tref)
| torch_matmul (a b : tref) : lib tref.

End Library.

Arguments world F : clear implicits.
Arguments lib F : clear implicits.
Arguments operand F : clear implicits.

(** ** Library calls that are not given a meaning

    The remaining numpy and torch calls of the two modules.  Programs that
    use them run against any handler that reads and writes the store of
    array objects only. *)

(** A bound of [clip]: [None], a number, or an infinity. *)
Inductive bound (F : Type) :=
| BNone
| BVal (x : F)
| BNegInf
| BPosInf.

Arguments BNone {F}.
Arguments BVal {F} x.
Arguments BNegInf {F}.
Arguments BPosInf {F}.

Inductive ext (F : Type) : Type -> Type :=
(* numpy *)
| np_array (t : tref) (dt : dtype) : ext F tref
| np_diag (t : tref) : ext F tref
| np_identity (n : nat) (dt : dtype) : ext F tref
| np_fill_diagonal (mat : tref) (val : F) : ext F unit
| np_sign (t : tref) : ext F tref
| nd_clip (t : tref) (a_min a_max : bound F) (out : option tref) : ext F tref
| np_round (t : tref) : ext F tref
| np_ravel (t : tref) : ext F tref
| np_reshape (t : tref) (newshape : list nat) : ext F tref
| np_linalg_norm (x : tref) : ext F F
| np_equal (x y : tref) : ext F tref
| np_allclose (x y : tref) : ext F bool
| np_not_equal (x y : tref) : ext F tref
| np_greater (x y : tref) : ext F tref
| np_greater_equal (x y : tref) : ext F tref
| np_less (x y : tref) : ext F tref
| np_less_equal (x y : tref) : ext F tref
| np_maximum (x y : tref) : ext F tref
| np_minimum (x y : tref) : ext F tref
| np_argmax (x : tref) (axis : option Z) (keepdims : bool) : ext F (tref + Z)
| np_argmin (x : tref) (axis : option Z) (keepdims : bool) : ext F (tref + Z)
| np_outer (x y : tref) : ext F tref
| np_add (a b : tref) : ext F tref
| np_linalg_inv (mat : tref) : ext F tref
| np_repeat (t : tref) (n : Z) (axis : nat) : ext F tref
| np_stack (ts : list tref) (axis : nat) : ext F tref
| np_hstack (ts : list tref) : ext F tref
| np_vstack (ts : list tref) : ext F tref
| np_arange_float (start end_ step : F) (dt : dtype) : ext F tref
| np_prod (s : list nat) : ext F nat
(* torch *)
| tensor_numpy (t : tref) : ext F tref
| torch_FloatTensor (t : tref) : ext F tref
| tensor_diag (t : tref) : ext F tref
| torch_diag (t : tref) : ext F tref
| torch_eye (n : nat) : ext F tref
| tensor_len (t : tref) : ext F Z
| tensor_setitem2 (mat : tref) (i j : Z) (val : F) : ext F unit
| tensor_getitem2 (t : tref) (i j : Z) : ext F Z
| tensor_sign (t : tref) : ext F tref
| tensor_clamp (t : tref) (a_min a_max : bound F) : ext F tref
| tensor_clamp_ (t : tref) (a_min a_max : bound F) : ext F tref
| tensor_round (t : tref) : ext F tref
| tensor_view (t : tref) (s : list nat) : ext F tref
| tensor_norm (x : tref) : ext F F
| torch_eq (x y : tref) : ext F tref
| torch_neq (x y : tref) : ext F tref
| torch_gt (x y : tref) : ext F tref
| torch_ge (x y : tref) : ext F tref
| torch_lt (x y : tref) : ext F tref
| torch_le (x y : tref) : ext F tref
| torch_le_scalar (x : tref) (c : F) : ext F tref
| torch_max2 (x y : tref) : ext F tref
| torch_min2 (x y : tref) : ext F tref
| tensor_sub (x y : tref) : ext F tref
| torch_abs (x : tref) : ext F tref
| torch_ger (x y : tref) : ext F tref
| tensor_unsqueeze (t : tref) (d : nat) : ext F tref
| tensor_size_at (t : tref) (d : nat) : ext F nat
| tensor_expand (t : tref) (n m : nat) : ext F tref
| tensor_iadd (t u : tref) : ext F tref
| tensor_inverse (t : tref) : ext F tref.

(** A call of either kind. *)
Inductive libx (F : Type) : Type -> Type :=
| Lib X (e : lib F X) : libx F X
| Ext X (e : ext F X) : libx F X.

Arguments Lib {F X} e.
Arguments Ext {F X} e.

(** Programs over calls of either kind. *)
Abbreviation progx F := (prog (libx F)).

Definition callm {F X} (e : lib F X) : prog (libx F) X := call (Lib e).
Definition callx {F X} (e : ext F X) : prog (libx F) X := call (Ext e).

(** A program over the library calls with a meaning, among all calls. *)
Fixpoint lift {F A} (p : prog (lib F) A) : prog (libx F) A :=
  match p with
  | Ret a => Ret a
  | Throw e => Throw e
  | Vis ev k => Vis (Lib ev) (fun x => lift (k x))
  end.

Definition to_bound {F} (a : option F) : bound F :=
  match a with
  | Some x => BVal x
  | None => BNone
  end.

(** ** Meaning of the library calls

    numpy, numexpr and torch are not part of the repository; the handler
    follows their documented behaviour on the fragment the theorems use:
    - elementwise operations on operands of equal shape, or of an array and
      a scalar (general broadcasting is not modelled: unequal shapes are
      answered with the library's shape error);
    - [numpy.dot] and [@] on two matrices;
    - reductions over one axis or over all elements.  The torch version the
      module was written for ("pytorch does not have broadcasting yet!")
      keeps the reduced dimension with length one, which is what the
      comment "use keepdims = True so that behavior is the same as torch"
      and the indexing [b[0, index[0,0]]] in the module rely on; a torch
      reduction without [dim] returns a Python number;
    - numpy and numexpr report a bad shape or axis with ValueError, torch
      with RuntimeError; torch refuses two operands of different tensor
      types with TypeError;
    - numexpr gives an expression the highest kind of its operands (bool,
      int, long, float, double; a float32 scalar has kind float, an integer
      constant kind int), has no arithmetic on two booleans, and with
      [out=] refuses a result that cannot be cast safely to the element
      type of [out];
    - methods ending in an underscore ([mul_], [add_], [div_]) and [out=]
      overwrite the memory of their receiver and return it: the receiver
      and every view of the same memory change.  [numpy.transpose] and
      [tensor.t()] return a view of their argument; every other call that
      returns an array returns a new object with memory of its own;
    - [numpy.random.choice] reads and advances the library's global
      generator. *)

Section Handler.

Context {F : Type} `{Scalar F}.

Definition hres (X : Type) : Type := (res X * world F)%type.

Definition load (w : world F) (r : tref) : res (tensor F) :=
  match heap w !! r with
  | Some t => inr t
  | None => inl RuntimeError
  end.

(** [numpy.transpose]: the axes in reverse order. *)
Definition np_transpose_sem (t : tensor F) : res (tensor F) :=
  match t_shape t with
  | [] | [_] => inr t
  | [_; _] => transpose2 t
  | s => inr (Tensor (t_dtype t) (rev s) (transpose_data s (t_data t)))
  end.

(** What a view with the axes in reverse order shows of contents [t]. *)
Definition reversed_axes (t : tensor F) : tensor F :=
  match np_transpose_sem t with
  | inr t' => t'
  | inl _ => t
  end.

(** The call returns a value and leaves the store alone. *)
Definition h_val {X} (w : world F) (r : res X) : hres X := (r, w).

(** The call returns a new array object with memory of its own. *)
Definition h_new (w : world F) (r : res (tensor F)) : hres tref :=
  match r with
  | inr t => (inr (length (heap w)), set_heap w (heap w ++ [t]))
  | inl e => (inl e, w)
  end.

(** The call returns a new array object that is a view of the memory of
    [x], with the axes in reverse order. *)
Definition h_view (w : world F) (x : tref) (r : res (tensor F)) : hres tref :=
  match r with
  | inr t =>
      (inr (length (heap w)),
       World (heap w ++ [t])
             ((length (heap w), (owner w x, negb (reversed w x))) :: views w)
             (rng_seq w) (rng_pos w))
  | inl e => (inl e, w)
  end.

(** The contents of all objects after [t] is written to the memory of [x]:
    every object on that memory shows the new contents, through its own
    order of the axes. *)
Definition stored (w : world F) (x : tref) (t : tensor F) : list (tensor F) :=
  imap (fun z tz =>
          if decide (owner w z = owner w x)
          then if Bool.eqb (reversed w z) (reversed w x) then t else reversed_axes t
          else tz)
       (heap w).

(** The call overwrites object [x] and returns it. *)
Definition h_set (w : world F) (x : tref) (r : res (tensor F)) : hres tref :=
  match r with
  | inr t => (inr x, set_heap w (stored w x t))
  | inl e => (inl e, w)
  end.

(** *** numexpr *)

(** The kinds of numexpr, in increasing order. *)
Inductive nkind := KBool | KInt | KLong | KFloat | KDouble.

Definition krank (k : nkind) : nat :=
  match k with KBool => 0 | KInt => 1 | KLong => 2 | KFloat => 3 | KDouble => 4 end.

Definition kmax (a b : nkind) : nkind :=
  if (krank a <? krank b)%nat then b else a.

Definition kind_of (d : dtype) : nkind :=
  match d with
  | Bool => KBool
  | UInt8 | Int32 => KInt
  | Int64 => KLong
  | Float32 => KFloat
  | Float64 => KDouble
  end.

Definition dtype_of (k : nkind) : dtype :=
  match k with
  | KBool => Bool
  | KInt => Int32
  | KLong => Int64
  | KFloat => Float32
  | KDouble => Float64
  end.

(** numpy's casting rule 'safe'. *)
Definition can_cast_safe (from to : dtype) : bool :=
  match from, to with
  | Bool, _ => true
  | UInt8, (UInt8 | Int32 | Int64 | Float32 | Float64) => true
  | Int32, (Int32 | Int64 | Float64) => true
  | Int64, (Int64 | Float64) => true
  | Float32, (Float32 | Float64) => true
  | Float64, Float64 => true
  | _, _ => false
  end.

Inductive bval := BS (k : nkind) (x : F) | BA (k : nkind) (s : list nat) (d : list F).

Definition bkind (v : bval) : nkind :=
  match v with BS k _ | BA k _ _ => k end.

Definition bval_un (k : nkind) (f : F -> F) (a : bval) : bval :=
  match a with
  | BS _ x => BS k (f x)
  | BA _ s d => BA k s (map f d)
  end.

Definition bval_bin (k : nkind) (f : F -> F -> F) (a b : bval) : res bval :=
  match a, b with
  | BS _ x, BS _ y => inr (BS k (f x y))
  | BS _ x, BA _ s d => inr (BA k s (map (f x) d))
  | BA _ s d, BS _ y => inr (BA k s (map (fun a => f a y) d))
  | BA _ s d, BA _ s' d' =>
      if decide (s = s') then inr (BA k s (zip_with f d d')) else inl ValueError
  end.

(** [a + b], [a - b], [a * b]. *)
Definition arith (f : F -> F -> F) (a b : bval) : res bval :=
  match kmax (bkind a) (bkind b) with
  | KBool => inl NotImplementedError
  | k => bval_bin k f a b
  end.

(** [sqrt] of a boolean is a float, of an integer a double. *)
Definition sqrt_kind (k : nkind) : nkind :=
  match k with
  | KBool => KFloat
  | KInt | KLong => KDouble
  | k => k
  end.

(** [a / sqrt(b)]. *)
Definition div_sqrt (a b : bval) : res bval :=
  let r := bval_un (sqrt_kind (bkind b)) fsqrt b in
  bval_bin (kmax (bkind a) (bkind r)) fdiv a r.

(** An integer constant is an int when it fits 32 bits. *)
Definition const_kind (z : Z) : nkind :=
  if (- 2 ^ 31 <=? z) && (z <? 2 ^ 31) then KInt else KLong.

Fixpoint env_get (env : list (string * operand F)) (x : string) : option (operand F) :=
  match env with
  | [] => None
  | (y, v) :: env' => if String.eqb x y then Some v else env_get env' x
  end.

Fixpoint ne_eval (w : world F) (env : list (string * operand F)) (e : nexpr)
  : res bval :=
  match e with
  | NVar x =>
      match env_get env x with
      | Some (OScalar c) => inr (BS KFloat c)
      | Some (OArray r) =>
          res_bind (load w r) (fun t => inr (BA (kind_of (t_dtype t)) (t_shape t) (t_data t)))
      | None => inl KeyError
      end
  | NConst z => inr (BS (const_kind z) (of_Z z))
  | NAdd a b => res_bind (ne_eval w env a) (fun x => res_bind (ne_eval w env b) (arith fadd x))
  | NSub a b => res_bind (ne_eval w env a) (fun x => res_bind (ne_eval w env b) (arith fsub x))
  | NMul a b => res_bind (ne_eval w env a) (fun x => res_bind (ne_eval w env b) (arith fmul x))
  | NDivSqrt a b =>
      res_bind (ne_eval w env a) (fun x => res_bind (ne_eval w env b) (div_sqrt x))
  end.

Definition bval_tensor (v : bval) : tensor F :=
  match v with
  | BS k x => Tensor (dtype_of k) [] [x]
  | BA k s d => Tensor (dtype_of k) s d
  end.

(** With [out=x] the result must have the shape of [x] and cast safely to
    its element type.  The expression is evaluated on the operands as they
    are before [x] is written, which is what an elementwise expression
    gives when an operand is [x] itself; the theorems about [out=x] take
    every other operand on memory of its own. *)
Definition h_ne_evaluate (w : world F) (e : nexpr) (env : list (string * operand F))
    (out : option tref) : hres tref :=
  match ne_eval w env e with
  | inl err => (inl err, w)
  | inr v =>
      match out with
      | None => h_new w (inr (bval_tensor v))
      | Some x =>
          h_set w x (res_bind (load w x) (fun tx =>
            if decide (t_shape tx = t_shape (bval_tensor v))
            then if can_cast_safe (t_dtype (bval_tensor v)) (t_dtype tx)
                 then inr (Tensor (t_dtype tx) (t_shape tx) (t_data (bval_tensor v)))
                 else inl TypeError
            else inl ValueError))
      end
  end.

(** *** numpy's global generator *)

Definition h_random_choice (w : world F) (a : list Z) (size : Z) : hres (list Z) :=
  if size <? 0 then (inl ValueError, w)
  else match a with
       | [] => if size =? 0 then (inr [], w) else (inl ValueError, w)
       | _ =>
           let n := Z.to_nat size in
           (inr (map (fun k => nth (rng_seq w (rng_pos w + k) mod length a) a 0)
                     (seq 0 n)),
            World (heap w) (views w) (rng_seq w) (rng_pos w + n))
       end.

(** *** torch *)

Definition torch_type_name (d : dtype) : string :=
  match d with
  | Float32 => "torch.FloatTensor"
  | Float64 => "torch.DoubleTensor"
  | Bool | UInt8 => "torch.ByteTensor"
  | Int32 => "torch.IntTensor"
  | Int64 => "torch.LongTensor"
  end.

(** torch reports a bad shape or dimension with RuntimeError. *)
Definition torch_err {X} (r : res X) : res X :=
  match r with
  | inl ValueError => inl RuntimeError
  | _ => r
  end.

(** A torch operation on two tensors: they must be of one tensor type. *)
Definition torch_zip (f : F -> F -> F) (a b : tensor F) : res (tensor F) :=
  if decide (t_dtype a = t_dtype b) then torch_err (tzip f a b) else inl TypeError.

Definition torch_matmul_sem (a b : tensor F) : res (tensor F) :=
  if decide (t_dtype a = t_dtype b) then torch_err (matmul a b) else inl TypeError.

Definition arg_of (op : redop) : redop :=
  match op with RMin | RArgmin => RArgmin | _ => RArgmax end.

Definition np_reduce_sem (op : redop) (axis : option nat) (keepdims : bool)
    (t : tensor F) : res (tensor F) :=
  match axis with
  | Some d => reduce_axis op keepdims d t
  | None =>
      res_bind (reduce_all op t) (fun x =>
        inr (Tensor (red_dtype op (t_dtype t))
                    (if keepdims then map (fun _ => 1%nat) (t_shape t) else [])
                    [x]))
  end.

Definition with_t {X} (w : world F) (r : tref) (f : tensor F -> hres X) : hres X :=
  match load w r with
  | inr t => f t
  | inl e => (inl e, w)
  end.

Definition lib_h (X : Type) (ev : lib F X) (w : world F) : hres X :=
  match ev in lib _ X return hres X with
  | np_float32 x => h_val w (inr x)
  | np_shape t => h_val w (res_bind (load w t) (fun a => inr (t_shape a)))
  | np_ndim t => h_val w (res_bind (load w t) (fun a => inr (length (t_shape a))))
  | np_dtype t => h_val w (res_bind (load w t) (fun a => inr (t_dtype a)))
  | np_zeros s dt => h_new w (inr (full dt s fzero))
  | np_ones s dt => h_new w (inr (full dt s fone))
  | np_transpose t => h_view w t (res_bind (load w t) np_transpose_sem)
  | np_radd_scalar c t => h_new w (res_bind (load w t) (fun a => inr (tmap (fadd c) a)))
  | np_div_scalar t c => h_new w (res_bind (load w t) (fun a => inr (tmap (fun x => fdiv x c) a)))
  | np_mul a b => h_new w (res_bind (load w a) (fun ta => res_bind (load w b) (tzip fmul ta)))
  | np_sum t => h_val w (res_bind (load w t) (reduce_all RSum))
  | np_reduce op t axis keepdims =>
      h_new w (res_bind (load w t) (np_reduce_sem op axis keepdims))
  | np_dot a b => h_new w (res_bind (load w a) (fun ta => res_bind (load w b) (matmul ta)))
  | np_astype t dt =>
      h_new w (res_bind (load w t) (fun a => inr (Tensor dt (t_shape a) (t_data a))))
  | np_arange n => h_val w (inr (range 0 n))
  | np_random_choice a size => h_random_choice w a size
  | ne_evaluate e env out => h_ne_evaluate w e env out
  | torch_size t => h_val w (res_bind (load w t) (fun a => inr (t_shape a)))
  | torch_ndimension t => h_val w (res_bind (load w t) (fun a => inr (length (t_shape a))))
  | torch_type t => h_val w (res_bind (load w t) (fun a => inr (torch_type_name (t_dtype a))))
  | torch_t t => h_view w t (res_bind (load w t) (fun a => torch_err (transpose2 a)))
  | torch_zeros s => h_new w (inr (full Float32 s fzero))
  | torch_ones s => h_new w (inr (full Float32 s fone))
  | torch_mul_ x c => h_set w x (res_bind (load w x) (fun a => inr (tmap (fun v => fmul v c) a)))
  | torch_mul_scalar x c => h_new w (res_bind (load w x) (fun a => inr (tmap (fun v => fmul v c) a)))
  | torch_mul x y => h_new w (res_bind (load w x) (fun a => res_bind (load w y) (torch_zip fmul a)))
  | torch_add_ x y => h_set w x (res_bind (load w x) (fun a => res_bind (load w y) (torch_zip fadd a)))
  | torch_div_ x y => h_set w x (res_bind (load w x) (fun a => res_bind (load w y) (torch_zip fdiv a)))
  | torch_div_scalar x c => h_new w (res_bind (load w x) (fun a => inr (tmap (fun v => fdiv v c) a)))
  | torch_radd_scalar c x => h_new w (res_bind (load w x) (fun a => inr (tmap (fadd c) a)))
  | torch_sqrt x => h_new w (res_bind (load w x) (fun a => inr (tmap fsqrt a)))
  | torch_eq_scalar x c =>
      h_new w (res_bind (load w x) (fun a =>
        inr (Tensor UInt8 (t_shape a) (map (fun v => of_bool (feqb v c)) (t_data a)))))
  | torch_reduce_all op x => h_val w (res_bind (load w x) (fun a => torch_err (reduce_all op a)))
  | torch_reduce_dim op x dim =>
      h_new w (res_bind (load w x) (fun a => torch_err (reduce_axis op true dim a)))
  | torch_extremum_dim op x dim =>
      with_t w x (fun a =>
        match torch_err (reduce_axis op true dim a),
              torch_err (reduce_axis (arg_of op) true dim a) with
        | inr v, inr i =>
            (inr (length (heap w), S (length (heap w))), set_heap w (heap w ++ [v; i]))
        | inl e, _ | _, inl e => (inl e, w)
        end)
  | torch_matmul a b =>
      h_new w (res_bind (load w a) (fun ta => res_bind (load w b) (torch_matmul_sem ta)))
  end.

End Handler.

Arguments hres F X : clear implicits.

(** Running a program against a handler of its calls. *)
Section Run.

Context {F : Type} {E : Type -> Type}.

Variable h : forall X : Type, E X -> world F -> hres F X.

Fixpoint run_with {A} (p : prog E A) (w : world F) : hres F A :=
  match p with
  | Ret a => (inr a, w)
  | Throw e => (inl e, w)
  | Vis ev k =>
      match h ev w with
      | (inr x, w') => run_with (k x) w'
      | (inl e, w') => (inl e, w')
      end
  end.

End Run.

(** Running a program against the library. *)
Abbreviation run := (run_with (@lib_h _ _)).

(** Python values returned by the wrappers: [None], a number, an array
    object, a shape tuple, an integer, an element type. *)
Inductive value (F : Type) :=
| VNone
| VFloat (x : F)
| VRef (r : tref)
| VShape (s : list nat)
| VNat (n : nat)
| VDtype (d : dtype).

Arguments VNone {F}.
Arguments VFloat {F} x.
Arguments VRef {F} r.
Arguments VShape {F} s.
Arguments VNat {F} n.
Arguments VDtype {F} d.

(** ** python_backend/matrix.py *)

Module Py.
Section Py.

Context {F : Type} `{Scalar F}.

Local Abbreviation prog := (prog (lib F)).

Definition float_scalar (scalar : F) : prog F :=
  call (np_float32 scalar).

Definition shape (tensor : tref) : prog (list nat) :=
  call (np_shape tensor).

Definition ndim (tensor : tref) : prog nat :=
  call (np_ndim tensor).

Definition transpose (tensor : tref) : prog tref :=
  call (np_transpose tensor).

Definition zeros (shape : list nat) : prog tref :=
  call (np_zeros shape Float32).

Definition zeros_like (tensor : tref) : prog tref :=
  let* s := shape tensor in zeros s.

Definition ones (shape : list nat) : prog tref :=
  call (np_ones shape Float32).

Definition ones_like (tensor : tref) : prog tref :=
  let* s := shape tensor in ones s.

Definition dtype (tensor : tref) : prog dtype :=
  call (np_dtype tensor).

(** ['w*x + (1-w)*y'] *)
Definition mix_expr : nexpr :=
  NAdd (NMul (NVar "w") (NVar "x")) (NMul (NSub (NConst 1) (NVar "w")) (NVar "y")).

(** ['w*x + (1-w)*y*y'] *)
Definition square_mix_expr : nexpr :=
  NAdd (NMul (NVar "w") (NVar "x"))
       (NMul (NMul (NSub (NConst 1) (NVar "w")) (NVar "y")) (NVar "y")).

(** ['x/sqrt(z)'] *)
Definition sqrt_div_expr : nexpr :=
  NDivSqrt (NVar "x") (NVar "z").

Definition mix_inplace (w : F) (x y : tref) : prog unit :=
  let* _ := call (ne_evaluate mix_expr
                    [("w", OScalar w); ("x", OArray x); ("y", OArray y)]%string (Some x)) in
  Ret tt.

Definition square_mix_inplace (w : F) (x y : tref) : prog unit :=
  let* _ := call (ne_evaluate square_mix_expr
                    [("w", OScalar w); ("x", OArray x); ("y", OArray y)]%string (Some x)) in
  Ret tt.

Definition sqrt_div (x y : tref) : prog tref :=
  let* z := call (np_radd_scalar EPSILON y) in
  call (ne_evaluate sqrt_div_expr
          [("x", OArray x); ("y", OArray y); ("z", OArray z)]%string None).

Definition normalize (x : tref) : prog tref :=
  let* y := call (np_radd_scalar EPSILON x) in
  let* s := call (np_sum y) in
  call (np_div_scalar x s).

Definition tmax (x : tref) (axis : option nat) : prog tref :=
  call (np_reduce RMax x axis true).

Definition tmin (x : tref) (axis : option nat) : prog tref :=
  call (np_reduce RMin x axis true).

Definition mean (x : tref) (axis : option nat) : prog tref :=
  call (np_reduce RMean x axis true).

Definition var (x : tref) (axis : option nat) : prog tref :=
  call (np_reduce (RVar 0) x axis true).

Definition std (x : tref) (axis : option nat) : prog tref :=
  call (np_reduce (RStd 0) x axis true).

Definition tsum (x : tref) (axis : option nat) : prog tref :=
  call (np_reduce RSum x axis true).

Definition tprod (x : tref) (axis : option nat) : prog tref :=
  call (np_reduce RProd x axis true).

Definition tany (x : tref) (axis : option nat) : prog tref :=
  call (np_reduce RAny x axis true).

Definition tall (x : tref) (axis : option nat) : prog tref :=
  call (np_reduce RAll x axis true).

Definition dot (a b : tref) : prog tref :=
  call (np_dot a b).

Definition batch_dot (vis W hid : tref) (axis : nat) : prog tref :=
  let* vw := call (np_dot vis W) in
  let* p := call (np_mul vw hid) in
  let* s := call (np_reduce RSum p (Some axis) false) in
  call (np_astype s Float32).

Definition batch_outer (vis hid : tref) : prog tref :=
  let* vt := call (np_transpose vis) in
  call (np_dot vt hid).

(** *** The numba kernels

    The [jit] signatures fix the argument types: [float32[:]] is a row,
    [float32[:,:]] a list of rows, [int16] an integer.  Indexing follows
    Python: an index out of range raises IndexError.  [x**2] on a float is
    [x*x]. *)

Definition len {A} (l : list A) : Z := Z.of_nat (length l).

Definition squared_euclidean_distance (a b : list F) : prog F :=
  for_each (range 0 (len a)) fzero (fun result i =>
    let* ai := getitem a i in
    let* bi := getitem b i in
    Ret (fadd result (fmul (fsub ai bi) (fsub ai bi)))).

Definition euclidean_distance (a b : list F) : prog F :=
  let* r := squared_euclidean_distance a b in
  Ret (fsqrt r).

(** [x / d] for an integer [d]. *)
Definition truediv (x : F) (d : Z) : prog F :=
  if d =? 0 then Throw ZeroDivisionError else Ret (fdiv x (of_Z d)).

Definition fast_energy_distance (minibatch samples : list (list F)) (downsample : Z)
  : prog F :=
  let n := Z.min (len minibatch) downsample in
  let m := Z.min (len samples) downsample in
  let* r1 := call (np_arange (len minibatch)) in
  let* index_1 := call (np_random_choice r1 n) in
  let* r2 := call (np_arange (len samples)) in
  let* index_2 := call (np_random_choice r2 m) in
  let* d1 :=
    for_each (range 0 (n - 1)) fzero (fun d1 i =>
      for_each (range (i + 1) n) d1 (fun d1 j =>
        let* i1 := getitem index_1 i in
        let* a := getitem minibatch i1 in
        let* j1 := getitem index_1 j in
        let* b := getitem minibatch j1 in
        let* d := euclidean_distance a b in
        Ret (fadd d1 d))) in
  let* d1 := truediv (fmul (of_Z 2) d1) (n * n - n) in
  let* d2 :=
    for_each (range 0 (m - 1)) fzero (fun d2 i =>
      for_each (range (i + 1) m) d2 (fun d2 j =>
        let* i1 := getitem index_1 i in
        let* a := getitem samples i1 in
        let* j2 := getitem index_2 j in
        let* b := getitem samples j2 in
        let* d := euclidean_distance a b in
        Ret (fadd d2 d))) in
  let* d2 := truediv (fmul (of_Z 2) d2) (m * m - m) in
  let* d3 :=
    for_each index_1 fzero (fun d3 i =>
      for_each index_2 d3 (fun d3 j =>
        let* a := getitem minibatch i in
        let* b := getitem samples j in
        let* d := euclidean_distance a b in
        Ret (fadd d3 d))) in
  let* d3 := truediv d3 (n * m) in
  Ret (fsub (fsub (fmul (of_Z 2) d3) d2) d1).


(** *** Wrappers around calls that are not given a meaning *)

Definition to_numpy_array (tensor : tref) : progx F tref :=
  Ret tensor.

Definition float_tensor (tensor : tref) : progx F tref :=
  callx (np_array F tensor Float32).

Definition diag (vec : tref) : progx F tref :=
  callx (np_diag F vec).

Definition diagonal_matrix (mat : tref) : progx F tref :=
  callx (np_diag F mat).

Definition identity (n : nat) : progx F tref :=
  callx (np_identity F n Float32).

Definition fill_diagonal (mat : tref) (val : F) : progx F unit :=
  callx (np_fill_diagonal mat val).

Definition sign (tensor : tref) : progx F tref :=
  callx (np_sign F tensor).

Definition clip (tensor : tref) (a_min a_max : option F) : progx F tref :=
  callx (nd_clip tensor (to_bound a_min) (to_bound a_max) None).

Definition clip_inplace (tensor : tref) (a_min a_max : option F) : progx F unit :=
  let* _ := callx (nd_clip tensor (to_bound a_min) (to_bound a_max) (Some tensor)) in
  Ret tt.

Definition tround (tensor : tref) : progx F tref :=
  callx (np_round F tensor).

Definition flatten (tensor : tref) : progx F tref :=
  callx (np_ravel F tensor).

Definition reshape (tensor : tref) (newshape : list nat) : progx F tref :=
  callx (np_reshape F tensor newshape).

Definition norm (x : tref) : progx F F :=
  callx (np_linalg_norm F x).

Definition equal (x y : tref) : progx F tref :=
  callx (np_equal F x y).

Definition allclose (x y : tref) : progx F bool :=
  callx (np_allclose F x y).

Definition not_equal (x y : tref) : progx F tref :=
  callx (np_not_equal F x y).

Definition greater (x y : tref) : progx F tref :=
  callx (np_greater F x y).

Definition greater_equal (x y : tref) : progx F tref :=
  callx (np_greater_equal F x y).

Definition lesser (x y : tref) : progx F tref :=
  callx (np_less F x y).

Definition lesser_equal (x y : tref) : progx F tref :=
  callx (np_less_equal F x y).

Definition maximum (x y : tref) : progx F tref :=
  callx (np_maximum F x y).

Definition minimum (x y : tref) : progx F tref :=
  callx (np_minimum F x y).

Definition argmax (x : tref) (axis : option Z) : progx F (tref + Z) :=
  callx (np_argmax F x axis false).

Definition argmin (x : tref) (axis : option Z) : progx F (tref + Z) :=
  callx (np_argmin F x axis false).

Definition outer (x y : tref) : progx F tref :=
  callx (np_outer F x y).

Definition affine (a b W : tref) : progx F tref :=
  let* t := callm (np_dot W b) in
  callx (np_add F a t).

Definition quadratic (a b W : tref) : progx F tref :=
  let* t := callm (np_dot W b) in
  callm (np_dot a t).

Definition inv (mat : tref) : progx F tref :=
  callx (np_linalg_inv F mat).

Definition repeat (tensor : tref) (n : Z) (axis : nat) : progx F tref :=
  callx (np_repeat F tensor n axis).

Definition stack (tensors : list tref) (axis : nat) : progx F tref :=
  callx (np_stack F tensors axis).

Definition hstack (tensors : list tref) : progx F tref :=
  callx (np_hstack F tensors).

Definition vstack (tensors : list tref) : progx F tref :=
  callx (np_vstack F tensors).

Definition trange (start end_ step : F) : progx F tref :=
  callx (np_arange_float start end_ step Float32).

End Py.
End Py.

(** ** pytorch_backend/matrix.py *)

Module Torch.
Section Torch.

Context {F : Type} `{Scalar F}.

Local Abbreviation prog := (prog (lib F)).

Definition float_scalar (scalar : F) : prog F :=
  call (np_float32 scalar).

(** Python's [tuple(...)] of a [torch.Size]. *)
Definition tuple (s : list nat) : list nat := s.

Definition shape (tensor : tref) : prog (list nat) :=
  let* s := call (torch_size tensor) in
  Ret (tuple s).

Definition ndim (tensor : tref) : prog nat :=
  call (torch_ndimension tensor).

Definition transpose (tensor : tref) : prog tref :=
  call (torch_t tensor).

Definition zeros (shape : list nat) : prog tref :=
  call (torch_zeros shape).

Definition zeros_like (tensor : tref) : prog tref :=
  let* s := shape tensor in zeros s.

Definition ones (shape : list nat) : prog tref :=
  call (torch_ones shape).

Definition ones_like (tensor : tref) : prog tref :=
  let* s := shape tensor in ones s.

Definition dtype (tensor : tref) : prog dtype :=
  let* s := call (torch_type tensor) in
  raise_str s.

Definition mix_inplace (w : F) (x y : tref) : prog unit :=
  let* _ := call (torch_mul_ x w) in
  let* t := call (torch_mul_scalar y (fsub (of_Z 1) w)) in
  let* _ := call (torch_add_ x t) in
  Ret tt.

Definition square_mix_inplace (w : F) (x y : tref) : prog unit :=
  let* _ := call (torch_mul_ x w) in
  let* yy := call (torch_mul y y) in
  let* t := call (torch_mul_scalar yy (fsub (of_Z 1) w)) in
  let* _ := call (torch_add_ x t) in
  Ret tt.

Definition sqrt_div (x y : tref) : prog tref :=
  let* z := call (torch_radd_scalar EPSILON y) in
  let* s := call (torch_sqrt z) in
  call (torch_div_ x s).

Definition normalize (x : tref) : prog tref :=
  let* y := call (torch_radd_scalar EPSILON x) in
  let* s := call (torch_reduce_all RSum y) in
  call (torch_div_scalar x s).

Definition tmax (x : tref) (axis : option nat) : prog (value F) :=
  match axis with
  | Some d => let* p := call (torch_extremum_dim RMax x d) in Ret (VRef (fst p))
  | None => let* v := call (torch_reduce_all RMax x) in Ret (VFloat v)
  end.

Definition tmin (x : tref) (axis : option nat) : prog (value F) :=
  match axis with
  | Some d => let* p := call (torch_extremum_dim RMin x d) in Ret (VRef (fst p))
  | None => let* v := call (torch_reduce_all RMin x) in Ret (VFloat v)
  end.

(** The pattern shared by [mean], [var], [std], [tsum] and [tprod]. *)
Definition reduce_with (op : redop) (x : tref) (axis : option nat) : prog (value F) :=
  match axis with
  | Some d => let* r := call (torch_reduce_dim op x d) in Ret (VRef r)
  | None => let* v := call (torch_reduce_all op x) in Ret (VFloat v)
  end.

Definition mean (x : tref) (axis : option nat) : prog (value F) :=
  reduce_with RMean x axis.

Definition var (x : tref) (axis : option nat) : prog (value F) :=
  reduce_with (RVar 1) x axis.

Definition std (x : tref) (axis : option nat) : prog (value F) :=
  reduce_with (RStd 1) x axis.

Definition tsum (x : tref) (axis : option nat) : prog (value F) :=
  reduce_with RSum x axis.

Definition tprod (x : tref) (axis : option nat) : prog (value F) :=
  reduce_with RProd x axis.

Definition tany (x : tref) (axis : option nat) : prog (value F) :=
  let* b := call (torch_eq_scalar x (of_bool true)) in
  tmax b axis.

Definition tall (x : tref) (axis : option nat) : prog (value F) :=
  let* b := call (torch_eq_scalar x (of_bool true)) in
  tmin b axis.

Definition dot (a b : tref) : prog tref :=
  call (torch_matmul a b).

Definition batch_dot (vis W hid : tref) (axis : nat) : prog tref :=
  Throw NotImplementedError.

Definition batch_outer (vis hid : tref) : prog tref :=
  Throw NotImplementedError.

Definition repeat (tensor : tref) (n : Z) (axis : nat) : prog tref :=
  Throw NotImplementedError.

Definition stack (tensors : list tref) (axis : nat) : prog tref :=
  Throw NotImplementedError.

Definition hstack (tensors : list tref) : prog tref :=
  Throw NotImplementedError.

Definition vstack (tensors : list tref) : prog tref :=
  Throw NotImplementedError.

Definition trange (start end_ step : F) : prog tref :=
  Throw NotImplementedError.

Definition squared_euclidean_distance (a b : list F) : prog F :=
  Throw NotImplementedError.

Definition euclidean_distance (a b : list F) : prog F :=
  Throw NotImplementedError.

Definition fast_energy_distance (minibatch samples : list (list F)) (downsample : Z)
  : prog F :=
  Throw NotImplementedError.


(** *** Wrappers around calls that are not given a meaning *)

Definition to_numpy_array (tensor : tref) : progx F tref :=
  callx (tensor_numpy F tensor).

Definition float_tensor (tensor : tref) : progx F tref :=
  callx (torch_FloatTensor F tensor).

Definition diag (mat : tref) : progx F tref :=
  callx (tensor_diag F mat).

Definition diagonal_matrix (vec : tref) : progx F tref :=
  callx (torch_diag F vec).

Definition identity (n : nat) : progx F tref :=
  callx (torch_eye F n).

Definition fill_diagonal (mat : tref) (val : F) : progx F unit :=
  let* n := callx (tensor_len F mat) in
  for_each (range 0 n) tt (fun _ i => callx (tensor_setitem2 mat i i val)).

Definition sign (tensor : tref) : progx F tref :=
  callx (tensor_sign F tensor).

Definition clip (tensor : tref) (a_min a_max : option F) : progx F tref :=
  callx (tensor_clamp tensor (from_option BVal BNegInf a_min)
                      (from_option BVal BPosInf a_max)).

Definition clip_inplace (tensor : tref) (a_min a_max : option F) : progx F tref :=
  callx (tensor_clamp_ tensor (to_bound a_min) (to_bound a_max)).

Definition tround (tensor : tref) : progx F tref :=
  callx (tensor_round F tensor).

Definition flatten (tensor : tref) : progx F tref :=
  let* s := lift (shape tensor) in
  let* n := callx (np_prod F s) in
  callx (tensor_view F tensor [n]).

Definition reshape (tensor : tref) (newshape : list nat) : progx F tref :=
  callx (tensor_view F tensor newshape).

Definition norm (x : tref) : progx F F :=
  callx (tensor_norm F x).

Definition equal (x y : tref) : progx F tref :=
  callx (torch_eq F x y).

Definition allclose (x y : tref) : progx F tref :=
  let* d := callx (tensor_sub F x y) in
  let* a := callx (torch_abs F d) in
  callx (torch_le_scalar a EPSILON).

Definition not_equal (x y : tref) : progx F tref :=
  callx (torch_neq F x y).

Definition greater (x y : tref) : progx F tref :=
  callx (torch_gt F x y).

Definition greater_equal (x y : tref) : progx F tref :=
  callx (torch_ge F x y).

Definition lesser (x y : tref) : progx F tref :=
  callx (torch_lt F x y).

Definition lesser_equal (x y : tref) : progx F tref :=
  callx (torch_le F x y).

Definition maximum (x y : tref) : progx F tref :=
  callx (torch_max2 F x y).

Definition minimum (x y : tref) : progx F tref :=
  callx (torch_min2 F x y).

Definition argmax (x : tref) (axis : option nat) : progx F (tref + Z) :=
  match axis with
  | Some d =>
      let* p := callm (torch_extremum_dim RMax x d) in
      Ret (inl (snd p))
  | None =>
      let* ab := callm (torch_extremum_dim RMax x 0) in
      let* p := callm (torch_extremum_dim RMax (fst ab) 1) in
      let* i := callx (tensor_getitem2 F (snd p) 0 0) in
      let* r := callx (tensor_getitem2 F (snd ab) 0 i) in
      Ret (inr r)
  end.

Definition argmin (x : tref) (axis : option nat) : progx F (tref + Z) :=
  match axis with
  | Some d =>
      let* p := callm (torch_extremum_dim RMin x d) in
      Ret (inl (snd p))
  | None =>
      let* ab := callm (torch_extremum_dim RMin x 0) in
      let* p := callm (torch_extremum_dim RMin (fst ab) 1) in
      let* i := callx (tensor_getitem2 F (snd p) 0 0) in
      let* r := callx (tensor_getitem2 F (snd ab) 0 i) in
      Ret (inr r)
  end.

Definition outer (x y : tref) : progx F tref :=
  callx (torch_ger F x y).

Definition broadcast (vec mat : tref) : progx F tref :=
  let* u := callx (tensor_unsqueeze F vec 0) in
  let* n := callx (tensor_size_at F mat 0) in
  let* m := callx (tensor_size_at F vec 0) in
  callx (tensor_expand F u n m).

Definition affine (a b W : tref) : progx F tref :=
  let* tmp := lift (dot W b) in
  let* bc := broadcast a tmp in
  callx (tensor_iadd F tmp bc).

Definition quadratic (a b W : tref) : progx F tref :=
  let* t := callm (torch_matmul a W) in
  callm (torch_matmul t b).

Definition inv (mat : tref) : progx F tref :=
  callx (tensor_inverse F mat).

End Torch.
End Torch.

(** ** The function table shared by the two backends

    One constructor per function name defined in both modules, with the
    arguments of a call. *)

Inductive op (F : Type) :=
| OFloatScalar (scalar : F)
| OShape (tensor : tref)
| ONdim (tensor : tref)
| OTranspose (tensor : tref)
| OZeros (shape : list nat)
| OZerosLike (tensor : tref)
| OOnes (shape : list nat)
| OOnesLike (tensor : tref)
| ODtype (tensor : tref)
| OMixInplace (w : F) (x y : tref)
| OSquareMixInplace (w : F) (x y : tref)
| OSqrtDiv (x y : tref)
| ONormalize (x : tref)
| OTmax (x : tref) (axis : option nat)
| OTmin (x : tref) (axis : option nat)
| OMean (x : tref) (axis : option nat)
| OVar (x : tref) (axis : option nat)
| OStd (x : tref) (axis : option nat)
| OTsum (x : tref) (axis : option nat)
| OTprod (x : tref) (axis : option nat)
| OTany (x : tref) (axis : option nat)
| OTall (x : tref) (axis : option nat)
| ODot (a b : tref)
| OBatchDot (vis W hid : tref) (axis : nat)
| OBatchOuter (vis hid : tref)
| OSquaredEuclideanDistance (a b : list F)
| OEuclideanDistance (a b : list F)
| OFastEnergyDistance (minibatch samples : list (list F)) (downsample : Z).

Arguments OFloatScalar {F}.
Arguments OShape {F}.
Arguments ONdim {F}.
Arguments OTranspose {F}.
Arguments OZeros {F}.
Arguments OZerosLike {F}.
Arguments OOnes {F}.
Arguments OOnesLike {F}.
Arguments ODtype {F}.
Arguments OMixInplace {F}.
Arguments OSquareMixInplace {F}.
Arguments OSqrtDiv {F}.
Arguments ONormalize {F}.
Arguments OTmax {F}.
Arguments OTmin {F}.
Arguments OMean {F}.
Arguments OVar {F}.
Arguments OStd {F}.
Arguments OTsum {F}.
Arguments OTprod {F}.
Arguments OTany {F}.
Arguments OTall {F}.
Arguments ODot {F}.
Arguments OBatchDot {F}.
Arguments OBatchOuter {F}.
Arguments OSquaredEuclideanDistance {F}.
Arguments OEuclideanDistance {F}.
Arguments OFastEnergyDistance {F}.

Section Table.

Context {F : Type} `{Scalar F}.

Definition ret_with {A} (inj : A -> value F) (p : prog (lib F) A) : prog (lib F) (value F) :=
  let* a := p in Ret (inj a).

Definition py_call (o : op F) : prog (lib F) (value F) :=
  match o with
  | OFloatScalar s => ret_with VFloat (Py.float_scalar s)
  | OShape t => ret_with VShape (Py.shape t)
  | ONdim t => ret_with VNat (Py.ndim t)
  | OTranspose t => ret_with VRef (Py.transpose t)
  | OZeros s => ret_with VRef (Py.zeros s)
  | OZerosLike t => ret_with VRef (Py.zeros_like t)
  | OOnes s => ret_with VRef (Py.ones s)
  | OOnesLike t => ret_with VRef (Py.ones_like t)
  | ODtype t => ret_with VDtype (Py.dtype t)
  | OMixInplace w x y => ret_with (fun _ => VNone) (Py.mix_inplace w x y)
  | OSquareMixInplace w x y => ret_with (fun _ => VNone) (Py.square_mix_inplace w x y)
  | OSqrtDiv x y => ret_with VRef (Py.sqrt_div x y)
  | ONormalize x => ret_with VRef (Py.normalize x)
  | OTmax x axis => ret_with VRef (Py.tmax x axis)
  | OTmin x axis => ret_with VRef (Py.tmin x axis)
  | OMean x axis => ret_with VRef (Py.mean x axis)
  | OVar x axis => ret_with VRef (Py.var x axis)
  | OStd x axis => ret_with VRef (Py.std x axis)
  | OTsum x axis => ret_with VRef (Py.tsum x axis)
  | OTprod x axis => ret_with VRef (Py.tprod x axis)
  | OTany x axis => ret_with VRef (Py.tany x axis)
  | OTall x axis => ret_with VRef (Py.tall x axis)
  | ODot a b => ret_with VRef (Py.dot a b)
  | OBatchDot vis W hid axis => ret_with VRef (Py.batch_dot vis W hid axis)
  | OBatchOuter vis hid => ret_with VRef (Py.batch_outer vis hid)
  | OSquaredEuclideanDistance a b => ret_with VFloat (Py.squared_euclidean_distance a b)
  | OEuclideanDistance a b => ret_with VFloat (Py.euclidean_distance a b)
  | OFastEnergyDistance mb sm ds => ret_with VFloat (Py.fast_energy_distance mb sm ds)
  end.

Definition torch_call (o : op F) : prog (lib F) (value F) :=
  match o with
  | OFloatScalar s => ret_with VFloat (Torch.float_scalar s)
  | OShape t => ret_with VShape (Torch.shape t)
  | ONdim t => ret_with VNat (Torch.ndim t)
  | OTranspose t => ret_with VRef (Torch.transpose t)
  | OZeros s => ret_with VRef (Torch.zeros s)
  | OZerosLike t => ret_with VRef (Torch.zeros_like t)
  | OOnes s => ret_with VRef (Torch.ones s)
  | OOnesLike t => ret_with VRef (Torch.ones_like t)
  | ODtype t => ret_with VDtype (Torch.dtype t)
  | OMixInplace w x y => ret_with (fun _ => VNone) (Torch.mix_inplace w x y)
  | OSquareMixInplace w x y => ret_with (fun _ => VNone) (Torch.square_mix_inplace w x y)
  | OSqrtDiv x y => ret_with VRef (Torch.sqrt_div x y)
  | ONormalize x => ret_with VRef (Torch.normalize x)
  | OTmax x axis => Torch.tmax x axis
  | OTmin x axis => Torch.tmin x axis
  | OMean x axis => Torch.mean x axis
  | OVar x axis => Torch.var x axis
  | OStd x axis => Torch.std x axis
  | OTsum x axis => Torch.tsum x axis
  | OTprod x axis => Torch.tprod x axis
  | OTany x axis => Torch.tany x axis
  | OTall x axis => Torch.tall x axis
  | ODot a b => ret_with VRef (Torch.dot a b)
  | OBatchDot vis W hid axis => ret_with VRef (Torch.batch_dot vis W hid axis)
  | OBatchOuter vis hid => ret_with VRef (Torch.batch_outer vis hid)
  | OSquaredEuclideanDistance a b => ret_with VFloat (Torch.squared_euclidean_distance a b)
  | OEuclideanDistance a b => ret_with VFloat (Torch.euclidean_distance a b)
  | OFastEnergyDistance mb sm ds => ret_with VFloat (Torch.fast_energy_distance mb sm ds)
  end.



(** The shape of a returned value: a Python number has the empty shape. *)
Definition result_shape (r : hres F (value F)) : option (list nat) :=
  match fst r with
  | inr (VRef x) => @t_shape F <$> (heap (snd r) !! x)
  | inr (VFloat _) => Some []
  | _ => None
  end.

End Table.

(** ** Real arithmetic as the scalars

    The interpretation used for concrete runs: float32 values that are small
    integers or dyadic fractions, on which float and real arithmetic agree. *)

#[global] Instance R_scalar : Scalar R := {|
  fzero := 0%R;
  fone := 1%R;
  feps := (/ 8388608)%R;
  fadd := Rplus;
  fsub := Rminus;
  fmul := Rmult;
  fdiv := Rdiv;
  fsqrt := sqrt;
  fmax := Rmax;
  fmin := Rmin;
  feqb := fun x y => if Req_dec_T x y then true else false;
  of_Z := IZR
|}.

(** Calls that read and advance numpy's global generator. *)
Definition is_random {F X} (ev : lib F X) : bool :=
  match ev with
  | np_random_choice _ _ => true
  | _ => false
  end.


(** ** The rest of the function table

    The function names of the two modules whose library calls are not given
    a meaning (and [quadratic], whose arguments are vectors). *)

Inductive xop (F : Type) :=
| XToNumpyArray (tensor : tref)
| XFloatTensor (tensor : tref)
| XDiag (t : tref)
| XDiagonalMatrix (t : tref)
| XIdentity (n : nat)
| XFillDiagonal (mat : tref) (val : F)
| XSign (tensor : tref)
| XClip (tensor : tref) (a_min a_max : option F)
| XClipInplace (tensor : tref) (a_min a_max : option F)
| XTround (tensor : tref)
| XFlatten (tensor : tref)
| XReshape (tensor : tref) (newshape : list nat)
| XNorm (x : tref)
| XEqual (x y : tref)
| XAllclose (x y : tref)
| XNotEqual (x y : tref)
| XGreater (x y : tref)
| XGreaterEqual (x y : tref)
| XLesser (x y : tref)
| XLesserEqual (x y : tref)
| XMaximum (x y : tref)
| XMinimum (x y : tref)
| XArgmax (x : tref) (axis : option nat)
| XArgmin (x : tref) (axis : option nat)
| XOuter (x y : tref)
| XAffine (a b W : tref)
| XQuadratic (a b W : tref)
| XInv (mat : tref)
| XRepeat (tensor : tref) (n : Z) (axis : nat)
| XStack (tensors : list tref) (axis : nat)
| XHstack (tensors : list tref)
| XVstack (tensors : list tref)
| XTrange (start end_ step : F).

Arguments XToNumpyArray {F}.
Arguments XFloatTensor {F}.
Arguments XDiag {F}.
Arguments XDiagonalMatrix {F}.
Arguments XIdentity {F}.
Arguments XFillDiagonal {F}.
Arguments XSign {F}.
Arguments XClip {F}.
Arguments XClipInplace {F}.
Arguments XTround {F}.
Arguments XFlatten {F}.
Arguments XReshape {F}.
Arguments XNorm {F}.
Arguments XEqual {F}.
Arguments XAllclose {F}.
Arguments XNotEqual {F}.
Arguments XGreater {F}.
Arguments XGreaterEqual {F}.
Arguments XLesser {F}.
Arguments XLesserEqual {F}.
Arguments XMaximum {F}.
Arguments XMinimum {F}.
Arguments XArgmax {F}.
Arguments XArgmin {F}.
Arguments XOuter {F}.
Arguments XAffine {F}.
Arguments XQuadratic {F}.
Arguments XInv {F}.
Arguments XRepeat {F}.
Arguments XStack {F}.
Arguments XHstack {F}.
Arguments XVstack {F}.
Arguments XTrange {F}.

Section TableX.

Context {F : Type} `{Scalar F}.

(** A program together with its result type. *)
Definition some_prog : Type := {A : Type & prog (libx F) A}.

Definition pack {A} (p : prog (libx F) A) : some_prog := existT A p.

Definition py_xcall (o : xop F) : some_prog :=
  match o with
  | XToNumpyArray tensor => pack (Py.to_numpy_array tensor)
  | XFloatTensor tensor => pack (Py.float_tensor tensor)
  | XDiag t => pack (Py.diag t)
  | XDiagonalMatrix t => pack (Py.diagonal_matrix t)
  | XIdentity n => pack (Py.identity n)
  | XFillDiagonal mat val => pack (Py.fill_diagonal mat val)
  | XSign tensor => pack (Py.sign tensor)
  | XClip tensor a_min a_max => pack (Py.clip tensor a_min a_max)
  | XClipInplace tensor a_min a_max => pack (Py.clip_inplace tensor a_min a_max)
  | XTround tensor => pack (Py.tround tensor)
  | XFlatten tensor => pack (Py.flatten tensor)
  | XReshape tensor newshape => pack (Py.reshape tensor newshape)
  | XNorm x => pack (Py.norm x)
  | XEqual x y => pack (Py.equal x y)
  | XAllclose x y => pack (Py.allclose x y)
  | XNotEqual x y => pack (Py.not_equal x y)
  | XGreater x y => pack (Py.greater x y)
  | XGreaterEqual x y => pack (Py.greater_equal x y)
  | XLesser x y => pack (Py.lesser x y)
  | XLesserEqual x y => pack (Py.lesser_equal x y)
  | XMaximum x y => pack (Py.maximum x y)
  | XMinimum x y => pack (Py.minimum x y)
  | XArgmax x axis => pack (Py.argmax x (Z.of_nat <$> axis))
  | XArgmin x axis => pack (Py.argmin x (Z.of_nat <$> axis))
  | XOuter x y => pack (Py.outer x y)
  | XAffine a b W => pack (Py.affine a b W)
  | XQuadratic a b W => pack (Py.quadratic a b W)
  | XInv mat => pack (Py.inv mat)
  | XRepeat tensor n axis => pack (Py.repeat tensor n axis)
  | XStack tensors axis => pack (Py.stack tensors axis)
  | XHstack tensors => pack (Py.hstack tensors)
  | XVstack tensors => pack (Py.vstack tensors)
  | XTrange start end_ step => pack (Py.trange start end_ step)
  end.

Definition torch_xcall (o : xop F) : some_prog :=
  match o with
  | XToNumpyArray tensor => pack (Torch.to_numpy_array tensor)
  | XFloatTensor tensor => pack (Torch.float_tensor tensor)
  | XDiag t => pack (Torch.diag t)
  | XDiagonalMatrix t => pack (Torch.diagonal_matrix t)
  | XIdentity n => pack (Torch.identity n)
  | XFillDiagonal mat val => pack (Torch.fill_diagonal mat val)
  | XSign tensor => pack (Torch.sign tensor)
  | XClip tensor a_min a_max => pack (Torch.clip tensor a_min a_max)
  | XClipInplace tensor a_min a_max => pack (Torch.clip_inplace tensor a_min a_max)
  | XTround tensor => pack (Torch.tround tensor)
  | XFlatten tensor => pack (Torch.flatten tensor)
  | XReshape tensor newshape => pack (Torch.reshape tensor newshape)
  | XNorm x => pack (Torch.norm x)
  | XEqual x y => pack (Torch.equal x y)
  | XAllclose x y => pack (Torch.allclose x y)
  | XNotEqual x y => pack (Torch.not_equal x y)
  | XGreater x y => pack (Torch.greater x y)
  | XGreaterEqual x y => pack (Torch.greater_equal x y)
  | XLesser x y => pack (Torch.lesser x y)
  | XLesserEqual x y => pack (Torch.lesser_equal x y)
  | XMaximum x y => pack (Torch.maximum x y)
  | XMinimum x y => pack (Torch.minimum x y)
  | XArgmax x axis => pack (Torch.argmax x axis)
  | XArgmin x axis => pack (Torch.argmin x axis)
  | XOuter x y => pack (Torch.outer x y)
  | XAffine a b W => pack (Torch.affine a b W)
  | XQuadratic a b W => pack (Torch.quadratic a b W)
  | XInv mat => pack (Torch.inv mat)
  | XRepeat tensor n axis => pack (lift (Torch.repeat tensor n axis))
  | XStack tensors axis => pack (lift (Torch.stack tensors axis))
  | XHstack tensors => pack (lift (Torch.hstack tensors))
  | XVstack tensors => pack (lift (Torch.vstack tensors))
  | XTrange start end_ step => pack (lift (Torch.trange start end_ step))
  end.

(** The array objects of a store: their contents, and which of them are
    views of which. *)
Definition objects : Type := (list (tensor F) * list (tref * (tref * bool)))%type.

Definition objects_of (w : world F) : objects := (heap w, views w).

(** A meaning of the remaining calls: any function of the call and of the
    array objects. *)
Definition ext_handler : Type :=
  forall X : Type, ext F X -> objects -> res X * objects.

Definition libx_h (xh : ext_handler) (X : Type) (e : libx F X) (w : world F)
  : hres F X :=
  match e with
  | Lib e => lib_h e w
  | Ext e =>
      let (r, s') := xh _ e (objects_of w) in
      (r, World (fst s') (snd s') (rng_seq w) (rng_pos w))
  end.

Definition is_random_x (X : Type) (e : libx F X) : bool :=
  match e with
  | Lib e => is_random e
  | Ext _ => false
  end.

End TableX.

(** ** Properties of programs *)

(** The body is the library call [ev] and nothing else: the call's result
    is the wrapper's result, with no other call, arithmetic or control flow
    of the wrapper's own. *)
Definition delegates {E : Type -> Type} {A : Type} (p : prog E A) (ev : E A) : Prop :=
  p = call ev.

(** The body is one library call whose result is returned as it is. *)
Definition single_call {E : Type -> Type} {A : Type} (p : prog E A) : Prop :=
  match p with
  | Vis ev k =>
      exists pf : _ = A, forall x, k x = Ret (eq_rect _ (fun T : Type => T) x A pf)
  | _ => False
  end.

(** No path of the program makes a call that [rnd] marks. *)
Inductive rng_free_with {E : Type -> Type} (rnd : forall X, E X -> bool) {A}
  : prog E A -> Prop :=
| rng_free_ret (a : A) : rng_free_with rnd (Ret a)
| rng_free_throw (e : exn) : rng_free_with rnd (Throw e)
| rng_free_vis X (ev : E X) (k : X -> prog E A) :
    rnd X ev = false -> (forall x, rng_free_with rnd (k x)) ->
    rng_free_with rnd (Vis ev k).

(** No path of the program reaches the global generator. *)
Abbreviation rng_free := (rng_free_with (@is_random _)).

Section Hyperproperties.

Context {F : Type} {E : Type -> Type}.

Variable h : forall X : Type, E X -> world F -> hres F X.

(** Equal arguments and equal array objects give equal results and equal
    array objects afterwards, whatever the state of the generator. *)
Definition deterministic_with {A} (p : prog E A) : Prop :=
  forall w1 w2 : world F,
    heap w1 = heap w2 -> views w1 = views w2 ->
    fst (run_with h p w1) = fst (run_with h p w2) /\
    heap (snd (run_with h p w1)) = heap (snd (run_with h p w2)) /\
    views (snd (run_with h p w1)) = views (snd (run_with h p w2)).

(** The generator is left as it was found. *)
Definition stateless_with {A} (p : prog E A) : Prop :=
  forall w : world F,
    rng_seq (snd (run_with h p w)) = rng_seq w /\
    rng_pos (snd (run_with h p w)) = rng_pos w.

End Hyperproperties.

Abbreviation deterministic := (deterministic_with (@lib_h _ _)).
Abbreviation stateless := (stateless_with (@lib_h _ _)).

Section Properties.

Context {F : Type} `{Scalar F}.

(** The weighted average [w*x + (1-w)*y], elementwise. *)
Definition mixed (w : F) (tx ty : tensor F) : tensor F :=
  Tensor (t_dtype tx) (t_shape tx)
    (zip_with (fun a b => fadd (fmul w a) (fmul (fsub (of_Z 1) w) b))
              (t_data tx) (t_data ty)).

(** The row vector [v^T W] for a matrix [W] given by its rows, [m] columns. *)
Definition vecmat (m : nat) (v : list F) (W : list (list F)) : list F :=
  map (dotv v) (cols m W).

(** [v^T W h]. *)
Definition quadratic_form (m : nat) (v : list F) (W : list (list F)) (h : list F) : F :=
  dotv (vecmat m v W) h.

(** *** The energy distance as the claim words it *)

Definition dist (a b : list F) : F :=
  fsqrt (fsum (zip_with (fun x y => fmul (fsub x y) (fsub x y)) a b)).

(** Sum of the distances over the pairs [i < j] of a list of rows. *)
Fixpoint pair_sum (rows : list (list F)) : F :=
  match rows with
  | [] => fzero
  | r :: rows' => fadd (fsum (map (dist r) rows')) (pair_sum rows')
  end.

(** Mean distance over the pairs [i < j]: there are [(k*k - k)/2] of them. *)
Definition mean_within (rows : list (list F)) : F :=
  let k := Z.of_nat (length rows) in
  fdiv (fmul (of_Z 2) (pair_sum rows)) (of_Z (k * k - k)).

(** Mean distance between the rows of two lists. *)
Definition mean_between (xs ys : list (list F)) : F :=
  fdiv (fsum (flat_map (fun x => map (dist x) ys) xs))
       (of_Z (Z.of_nat (length xs) * Z.of_nat (length ys))).

(** [2*d3 - d2 - d1] on the two subsamples. *)
Definition energy_distance_of (sub_minibatch sub_samples : list (list F)) : F :=
  fsub (fsub (fmul (of_Z 2) (mean_between sub_minibatch sub_samples))
             (mean_within sub_samples))
       (mean_within sub_minibatch).

(** The rows of [m] selected by a list of indices. *)
Definition select (m : list (list F)) (idx : list Z) : list (list F) :=
  omap (fun i => m !! Z.to_nat i) idx.

(** *** Which calls of the table the two backends answer alike *)










End Properties.

(** *** Concrete stores *)

Definition m22 (a b c d : R) : tensor R := Tensor Float32 [2; 2]%nat [a; b; c; d].

(** Two matrices, each with memory of its own. *)
Definition store2 : world R :=
  World [m22 1 2 3 4; m22 1 0 0 1] [] (fun k => k) 0.

Definition store1 : world R :=
  World [Tensor Float32 [1]%nat [1%R]] [] (fun k => k) 0.

(** A generator state whose next outputs are the given numbers. *)
Definition draws (l : list nat) : world R :=
  World [] [] (fun k => nth k l 0%nat) 0.


(** The nine reductions of the table, on one argument and axis. *)
Definition reductions {F : Type} (x : tref) (axis : option nat) : list (op F) :=
  [OTmax x axis; OTmin x axis; OMean x axis; OVar x axis; OStd x axis;
   OTsum x axis; OTprod x axis; OTany x axis; OTall x axis].

(** The same store with another state of the generator. *)
Definition with_rng {F : Type} (w : world F) (g : nat -> nat) (p : nat) : world F :=
  World (heap w) (views w) g p.


(** ** Closed forms for the numba kernels *)

Section KernelForms.

Context {F : Type} `{Scalar F}.

(** [(x - y)**2]. *)
Definition sqdiff (x y : F) : F := fmul (fsub x y) (fsub x y).

(** [l[i]] for an index in range. *)
Definition zat (l : list Z) (i : Z) : Z := nth (Z.to_nat i) l 0.

(** [m[i]] for a row number in range. *)
Definition row (m : list (list F)) (i : Z) : list F := nth (Z.to_nat i) m [].

(** The pairs [i < j < n] in the order in which the two nested loops
    [for i in range(n-1): for j in range(i+1, n)] visit them. *)
Definition pairs (n : Z) : list (Z * Z) :=
  flat_map (fun i => map (fun j => (i, j)) (range (i + 1) n)) (range 0 (n - 1)).

(** The [k] row numbers below [L] that
    [numpy.random.choice(numpy.arange(L), size=k)] draws in state [w]. *)
Definition choice_indices (w : world F) (L k : nat) : list Z :=
  map (fun t => Z.of_nat (rng_seq w (rng_pos w + t) mod L)) (seq 0 k).

(** The value of [fast_energy_distance] for given draws. *)
Definition fed_value (minibatch samples : list (list F)) (index_1 index_2 : list Z) : F :=
  let n := Py.len index_1 in
  let m := Py.len index_2 in
  let d1 :=
    fdiv (fmul (of_Z 2)
            (fsum (map (fun p => dist (row minibatch (zat index_1 (fst p)))
                                      (row minibatch (zat index_1 (snd p))))
                       (pairs n))))
         (of_Z (n * n - n)) in
  let d2 :=
    fdiv (fmul (of_Z 2)
            (fsum (map (fun p => dist (row samples (zat index_1 (fst p)))
                                      (row samples (zat index_2 (snd p))))
                       (pairs m))))
         (of_Z (m * m - m)) in
  let d3 :=
    fdiv (fsum (flat_map (fun i => map (fun j => dist (row minibatch i) (row samples j))
                                       index_2) index_1))
         (of_Z (n * m)) in
  fsub (fsub (fmul (of_Z 2) d3) d2) d1.

End KernelForms.

(** ** Results of the in-place and elementwise functions *)

Section ElementwiseForms.

Context {F : Type} `{Scalar F}.



(** [x / sqrt(EPSILON + y)], elementwise. *)
Definition sqrt_div_data (tx ty : tensor F) : list F :=
  zip_with (fun a b => fdiv a (fsqrt (fadd EPSILON b))) (t_data tx) (t_data ty).

(** The element type of [x / sqrt(EPSILON + y)] in the python backend, for
    float arrays: float64 as soon as one of the two is float64. *)
Definition float_result (dx dy : dtype) : dtype :=
  match dx, dy with
  | Float32, Float32 => Float32
  | _, _ => Float64
  end.

Definition is_float (d : dtype) : Prop := d = Float32 \/ d = Float64.



End ElementwiseForms.

(** ** Matrices through the store *)

Section MatrixForms.

Context {F : Type} `{Scalar F}.

(** Column [j] of a matrix. *)
Definition column (j : nat) (t : tensor F) : list F :=
  map (fun r => nth j r fzero) (rows_of t).

(** The call returned a new array object with contents [T] and left every
    array object of the caller as it was. *)
Definition returns_new (w : world F) (r : hres F (value F)) (T : tensor F) : Prop :=
  exists x w',
    r = (inr (VRef x), w') /\ (length (heap w) <= x)%nat /\
    heap w' !! x = Some T /\ take (length (heap w)) (heap w') = heap w.

End MatrixForms.

(** ** Which array object an operation overwrites *)

Section FrameForms.

Context {F : Type} `{Scalar F}.

(** The object a library call overwrites: the [out] argument of
    [ne.evaluate] and the receiver of a torch method ending in an
    underscore. *)
Definition ev_target {X} (ev : lib F X) : option tref :=
  match ev with
  | ne_evaluate _ _ (Some x) => Some x
  | torch_mul_ x _ => Some x
  | torch_add_ x _ => Some x
  | torch_div_ x _ => Some x
  | _ => None
  end.

(** The call overwrites an object other than [t]. *)
Definition writes_outside (t : option tref) (X : Type) (ev : lib F X) : bool :=
  match ev_target ev, t with
  | None, _ => false
  | Some x, Some y => negb (Nat.eqb x y)
  | Some _, None => true
  end.

(** The argument a function of the python backend updates in place. *)
Definition py_target (o : op F) : option tref :=
  match o with
  | OMixInplace _ x _ | OSquareMixInplace _ x _ => Some x
  | _ => None
  end.

(** The argument a function of the pytorch backend updates in place. *)
Definition torch_target (o : op F) : option tref :=
  match o with
  | OMixInplace _ x _ | OSquareMixInplace _ x _ | OSqrtDiv x _ => Some x
  | _ => None
  end.

(** The object [z] of the caller has no part in the memory of the object
    that is updated in place, itself an object of the caller. *)
Definition separate_from (w : world F) (z : tref) (t : option tref) : Prop :=
  match t with
  | None => True
  | Some x => (x < length (heap w))%nat /\ ~ shares w z x
  end.

(** What a run that started in [w0] keeps true of the caller's object [z]:
    the caller's objects are still there, on the same memory, and [z] holds
    what it held. *)
Definition frame_inv (w0 w : world F) (z : tref) : Prop :=
  (length (heap w0) <= length (heap w))%nat /\
  (forall v, (v < length (heap w0))%nat -> owner w v = owner w0 v) /\
  heap w !! z = heap w0 !! z.

End FrameForms.

Arguments writes_outside {F} t X ev.
(** * Theorems *)

Unset Implicit Arguments.

Section RunLemmas.

Context {F : Type} `{Scalar F}.

Lemma run_bind {A B} (p : prog (lib F) A) (f : A -> prog (lib F) B) (w : world F) :
  run (bind p f) w =
  match run p w with
  | (inr a, w') => run (f a) w'
  | (inl e, w') => (inl e, w')
  end.
Proof.
  revert w. induction p as [a | e | X ev k IH]; intros w; simpl; try reflexivity.
  destruct (lib_h ev w) as [[e | x] w']; [reflexivity | apply IH].
Qed.

Lemma run_call {X} (ev : lib F X) (w : world F) :
  run (call ev) w = lib_h ev w.
Proof.
  unfold call. simpl. destruct (lib_h ev w) as [[e | x] w']; reflexivity.
Qed.

Lemma run_ret_with {A} (inj : A -> value F) (p : prog (lib F) A) (w : world F) :
  run (ret_with inj p) w =
  match run p w with
  | (inr a, w') => (inr (inj a), w')
  | (inl e, w') => (inl e, w')
  end.
Proof. unfold ret_with. rewrite run_bind. destruct (run p w) as [[e | a] w']; reflexivity. Qed.

End RunLemmas.

(** ** The unimplemented torch functions *)

(** C4. In the pytorch backend batch_dot, batch_outer, repeat, stack,
    hstack, vstack, trange, squared_euclidean_distance, euclidean_distance
    and fast_energy_distance raise NotImplementedError on every input and
    leave the store, hence all their arguments, as it was. *)
Theorem torch_stubs_raise {F : Type} `{Scalar F} (w : world F) :
  (forall vis W hid axis, run (Torch.batch_dot vis W hid axis) w = (inl NotImplementedError, w)) /\
  (forall vis hid, run (Torch.batch_outer vis hid) w = (inl NotImplementedError, w)) /\
  (forall tensor n axis, run (Torch.repeat tensor n axis) w = (inl NotImplementedError, w)) /\
  (forall tensors axis, run (Torch.stack tensors axis) w = (inl NotImplementedError, w)) /\
  (forall tensors, run (Torch.hstack tensors) w = (inl NotImplementedError, w)) /\
  (forall tensors, run (Torch.vstack tensors) w = (inl NotImplementedError, w)) /\
  (forall start end_ step, run (Torch.trange start end_ step) w = (inl NotImplementedError, w)) /\
  (forall a b, run (Torch.squared_euclidean_distance a b) w = (inl NotImplementedError, w)) /\
  (forall a b, run (Torch.euclidean_distance a b) w = (inl NotImplementedError, w)) /\
  (forall minibatch samples downsample,
     run (Torch.fast_energy_distance minibatch samples downsample) w
     = (inl NotImplementedError, w)).
Proof. repeat split. Qed.

(** ** dtype *)

(** C8. In the pytorch backend dtype never returns: on every tensor
    argument and in every store it ends in an exception (TypeError when the
    argument is an array object, since the raised value is the string that
    tensor.type() returns); the python backend's dtype returns the element
    type of its argument. *)
Theorem torch_dtype_never_returns {F : Type} `{Scalar F} (tensor : tref) (w : world F) :
  (exists e, run (Torch.dtype tensor) w = (inl e, w)) /\
  (forall t, heap w !! tensor = Some t ->
     run (Torch.dtype tensor) w = (inl TypeError, w) /\
     run (Py.dtype tensor) w = (inr (t_dtype t), w)).
Proof.
  split.
  - unfold Torch.dtype. rewrite run_bind, run_call. simpl. unfold h_val, load.
    destruct (heap w !! tensor); simpl; eauto.
  - intros t Ht. unfold Torch.dtype, Py.dtype.
    rewrite run_bind, !run_call. simpl. unfold h_val, load. rewrite Ht. auto.
Qed.

Lemma torch_dtype_never_returns_witness :
  (exists e, run (Torch.dtype 0%nat) store1 = (inl e, store1)) /\
  run (Torch.dtype 0%nat) store1 = (inl TypeError, store1) /\
  run (Py.dtype 0%nat) store1 = (inr Float32, store1).
Proof.
  destruct (torch_dtype_never_returns 0%nat store1) as [He Hr].
  split; [exact He | exact (Hr _ eq_refl)].
Defined.

(** ** Delegation *)

Lemma delegates_single_call {E : Type -> Type} {A} (p : prog E A) (ev : E A) :
  delegates p ev -> single_call p.
Proof. intros ->. exists eq_refl. reflexivity. Qed.

Lemma cast_inj (A B : Type) (pf : A = B) (x y : A) :
  eq_rect A (fun T : Type => T) x B pf = eq_rect A (fun T : Type => T) y B pf -> x = y.
Proof. destruct pf. simpl. auto. Qed.

Lemma cast_surj (A B : Type) (pf : A = B) (b : B) :
  exists a, eq_rect A (fun T : Type => T) a B pf = b.
Proof. destruct pf. simpl. eauto. Qed.

(** A call whose result is passed through a function that identifies two
    results is not returned as it is. *)
Lemma not_single_call_inj {E : Type -> Type} {X A} (ev : E X) (g : X -> A) (x y : X) :
  g x = g y -> x <> y -> ~ single_call (Vis ev (fun v => Ret (g v))).
Proof.
  intros Hg Hxy [pf Hk]. apply Hxy, (cast_inj X A pf).
  pose proof (Hk x) as Hx. pose proof (Hk y) as Hy.
  injection Hx as Hx. injection Hy as Hy. congruence.
Qed.

(** A call whose result is wrapped into one case of several is not
    returned as it is. *)
Lemma not_single_call_surj {E : Type -> Type} {X A} (ev : E X) (g : X -> A) (a : A) :
  (forall v, g v <> a) -> ~ single_call (Vis ev (fun v => Ret (g v))).
Proof.
  intros Hg [pf Hk]. destruct (cast_surj X A pf a) as [v Hv].
  pose proof (Hk v) as Hkv. injection Hkv as Hkv. apply (Hg v). congruence.
Qed.

(** C5, as amended. Every operation of the python backend other than
    to_numpy_array, zeros_like, ones_like, clip_inplace, mix_inplace,
    square_mix_inplace, sqrt_div, normalize, affine, quadratic, batch_dot,
    batch_outer, squared_euclidean_distance, euclidean_distance and
    fast_energy_distance, and every operation of the pytorch backend other
    than zeros_like, ones_like, fill_diagonal, flatten, dtype, mix_inplace,
    square_mix_inplace, sqrt_div, normalize, the nine reductions, allclose,
    argmax, argmin, broadcast, affine, quadratic and the ten unimplemented
    functions, is a pure delegation: its body is a single call of the
    library primitive it is named after, on the wrapper's own arguments,
    whose result is returned as it is, with no arithmetic or control flow of
    the wrapper's own.  The only arguments a wrapper adds are constants:
    dtype float32 for zeros, ones, identity, float_tensor and trange,
    keepdims=True for the python reductions and keepdims=False for the
    python argmax and argmin, no [out] for the python clip, and infinite
    bounds for an absent bound of the pytorch clip; the pytorch shape
    returns the Size of its one call as the tuple of the same numbers. *)
Theorem pure_delegations {F : Type} `{Scalar F} :
  (forall s : F, delegates (Py.float_scalar s) (np_float32 s)) /\
  (forall t, delegates (Py.shape (F:=F) t) (np_shape t)) /\
  (forall t, delegates (Py.ndim (F:=F) t) (np_ndim t)) /\
  (forall t, delegates (Py.transpose (F:=F) t) (np_transpose t)) /\
  (forall t, delegates (Py.dtype (F:=F) t) (np_dtype t)) /\
  (forall s, delegates (Py.zeros (F:=F) s) (np_zeros s Float32)) /\
  (forall s, delegates (Py.ones (F:=F) s) (np_ones s Float32)) /\
  (forall x axis, delegates (Py.tmax (F:=F) x axis) (np_reduce RMax x axis true)) /\
  (forall x axis, delegates (Py.tmin (F:=F) x axis) (np_reduce RMin x axis true)) /\
  (forall x axis, delegates (Py.mean (F:=F) x axis) (np_reduce RMean x axis true)) /\
  (forall x axis, delegates (Py.var (F:=F) x axis) (np_reduce (RVar 0) x axis true)) /\
  (forall x axis, delegates (Py.std (F:=F) x axis) (np_reduce (RStd 0) x axis true)) /\
  (forall x axis, delegates (Py.tsum (F:=F) x axis) (np_reduce RSum x axis true)) /\
  (forall x axis, delegates (Py.tprod (F:=F) x axis) (np_reduce RProd x axis true)) /\
  (forall x axis, delegates (Py.tany (F:=F) x axis) (np_reduce RAny x axis true)) /\
  (forall x axis, delegates (Py.tall (F:=F) x axis) (np_reduce RAll x axis true)) /\
  (forall a b, delegates (Py.dot (F:=F) a b) (np_dot a b)) /\
  (forall t, delegates (Py.float_tensor (F:=F) t) (Ext (np_array F t Float32))) /\
  (forall t, delegates (Py.diag (F:=F) t) (Ext (np_diag F t))) /\
  (forall t, delegates (Py.diagonal_matrix (F:=F) t) (Ext (np_diag F t))) /\
  (forall n, delegates (Py.identity (F:=F) n) (Ext (np_identity F n Float32))) /\
  (forall mat (val : F), delegates (Py.fill_diagonal mat val) (Ext (np_fill_diagonal mat val))) /\
  (forall t, delegates (Py.sign (F:=F) t) (Ext (np_sign F t))) /\
  (forall t (a_min a_max : option F),
     delegates (Py.clip t a_min a_max)
               (Ext (nd_clip t (to_bound a_min) (to_bound a_max) None))) /\
  (forall t, delegates (Py.tround (F:=F) t) (Ext (np_round F t))) /\
  (forall t, delegates (Py.flatten (F:=F) t) (Ext (np_ravel F t))) /\
  (forall t newshape, delegates (Py.reshape (F:=F) t newshape) (Ext (np_reshape F t newshape))) /\
  (forall x, delegates (Py.norm (F:=F) x) (Ext (np_linalg_norm F x))) /\
  (forall x y, delegates (Py.equal (F:=F) x y) (Ext (np_equal F x y))) /\
  (forall x y, delegates (Py.allclose (F:=F) x y) (Ext (np_allclose F x y))) /\
  (forall x y, delegates (Py.not_equal (F:=F) x y) (Ext (np_not_equal F x y))) /\
  (forall x y, delegates (Py.greater (F:=F) x y) (Ext (np_greater F x y))) /\
  (forall x y, delegates (Py.greater_equal (F:=F) x y) (Ext (np_greater_equal F x y))) /\
  (forall x y, delegates (Py.lesser (F:=F) x y) (Ext (np_less F x y))) /\
  (forall x y, delegates (Py.lesser_equal (F:=F) x y) (Ext (np_less_equal F x y))) /\
  (forall x y, delegates (Py.maximum (F:=F) x y) (Ext (np_maximum F x y))) /\
  (forall x y, delegates (Py.minimum (F:=F) x y) (Ext (np_minimum F x y))) /\
  (forall x axis, delegates (Py.argmax (F:=F) x axis) (Ext (np_argmax F x axis false))) /\
  (forall x axis, delegates (Py.argmin (F:=F) x axis) (Ext (np_argmin F x axis false))) /\
  (forall x y, delegates (Py.outer (F:=F) x y) (Ext (np_outer F x y))) /\
  (forall mat, delegates (Py.inv (F:=F) mat) (Ext (np_linalg_inv F mat))) /\
  (forall t n axis, delegates (Py.repeat (F:=F) t n axis) (Ext (np_repeat F t n axis))) /\
  (forall ts axis, delegates (Py.stack (F:=F) ts axis) (Ext (np_stack F ts axis))) /\
  (forall ts, delegates (Py.hstack (F:=F) ts) (Ext (np_hstack F ts))) /\
  (forall ts, delegates (Py.vstack (F:=F) ts) (Ext (np_vstack F ts))) /\
  (forall start end_ step : F,
     delegates (Py.trange start end_ step) (Ext (np_arange_float start end_ step Float32))) /\
  (forall s : F, delegates (Torch.float_scalar s) (np_float32 s)) /\
  (forall t, delegates (Torch.shape (F:=F) t) (torch_size t)) /\
  (forall t, delegates (Torch.ndim (F:=F) t) (torch_ndimension t)) /\
  (forall t, delegates (Torch.transpose (F:=F) t) (torch_t t)) /\
  (forall s, delegates (Torch.zeros (F:=F) s) (torch_zeros s)) /\
  (forall s, delegates (Torch.ones (F:=F) s) (torch_ones s)) /\
  (forall a b, delegates (Torch.dot (F:=F) a b) (torch_matmul a b)) /\
  (forall t, delegates (Torch.to_numpy_array (F:=F) t) (Ext (tensor_numpy F t))) /\
  (forall t, delegates (Torch.float_tensor (F:=F) t) (Ext (torch_FloatTensor F t))) /\
  (forall t, delegates (Torch.diag (F:=F) t) (Ext (tensor_diag F t))) /\
  (forall t, delegates (Torch.diagonal_matrix (F:=F) t) (Ext (torch_diag F t))) /\
  (forall n, delegates (Torch.identity (F:=F) n) (Ext (torch_eye F n))) /\
  (forall t, delegates (Torch.sign (F:=F) t) (Ext (tensor_sign F t))) /\
  (forall t (a_min a_max : option F),
     delegates (Torch.clip t a_min a_max)
               (Ext (tensor_clamp t (from_option BVal BNegInf a_min)
                                  (from_option BVal BPosInf a_max)))) /\
  (forall t (a_min a_max : option F),
     delegates (Torch.clip_inplace t a_min a_max)
               (Ext (tensor_clamp_ t (to_bound a_min) (to_bound a_max)))) /\
  (forall t, delegates (Torch.tround (F:=F) t) (Ext (tensor_round F t))) /\
  (forall t newshape, delegates (Torch.reshape (F:=F) t newshape) (Ext (tensor_view F t newshape))) /\
  (forall x, delegates (Torch.norm (F:=F) x) (Ext (tensor_norm F x))) /\
  (forall x y, delegates (Torch.equal (F:=F) x y) (Ext (torch_eq F x y))) /\
  (forall x y, delegates (Torch.not_equal (F:=F) x y) (Ext (torch_neq F x y))) /\
  (forall x y, delegates (Torch.greater (F:=F) x y) (Ext (torch_gt F x y))) /\
  (forall x y, delegates (Torch.greater_equal (F:=F) x y) (Ext (torch_ge F x y))) /\
  (forall x y, delegates (Torch.lesser (F:=F) x y) (Ext (torch_lt F x y))) /\
  (forall x y, delegates (Torch.lesser_equal (F:=F) x y) (Ext (torch_le F x y))) /\
  (forall x y, delegates (Torch.maximum (F:=F) x y) (Ext (torch_max2 F x y))) /\
  (forall x y, delegates (Torch.minimum (F:=F) x y) (Ext (torch_min2 F x y))) /\
  (forall x y, delegates (Torch.outer (F:=F) x y) (Ext (torch_ger F x y))) /\
  (forall mat, delegates (Torch.inv (F:=F) mat) (Ext (tensor_inverse F mat))).
Proof. repeat split. Qed.

(** C5, the claim as stated fails: the bodies of these functions are not a
    single library call whose result is returned as it is.  The python
    backend's sqrt_div first adds EPSILON to y with one library call and
    then evaluates x/sqrt(z) with another; the others make several calls
    or none, discard or select from the result of their call, loop, branch
    on an argument, or raise. *)
Lemma wrappers_not_delegating :
  (forall ev, ~ delegates (Py.sqrt_div (F:=R) 0%nat 1%nat) ev) /\
  (forall ev, ~ delegates (Py.normalize (F:=R) 0%nat) ev) /\
  (forall ev, ~ delegates (Py.to_numpy_array (F:=R) 0%nat) ev) /\
  (forall ev, ~ delegates (Py.zeros_like (F:=R) 0%nat) ev) /\
  (forall ev, ~ delegates (Py.ones_like (F:=R) 0%nat) ev) /\
  (forall ev, ~ delegates (Py.clip_inplace (F:=R) 0%nat None None) ev) /\
  (forall ev, ~ delegates (Py.mix_inplace 2%R 0%nat 1%nat) ev) /\
  (forall ev, ~ delegates (Py.square_mix_inplace 2%R 0%nat 1%nat) ev) /\
  (forall ev, ~ delegates (Py.affine (F:=R) 0%nat 1%nat 0%nat) ev) /\
  (forall ev, ~ delegates (Py.quadratic (F:=R) 0%nat 1%nat 0%nat) ev) /\
  (forall ev, ~ delegates (Py.batch_dot (F:=R) 0%nat 1%nat 0%nat 1%nat) ev) /\
  (forall ev, ~ delegates (Py.batch_outer (F:=R) 0%nat 1%nat) ev) /\
  (forall ev, ~ delegates (Py.squared_euclidean_distance (F:=R) [] []) ev) /\
  (forall ev, ~ delegates (Py.euclidean_distance (F:=R) [] []) ev) /\
  (forall ev, ~ delegates (Py.fast_energy_distance (F:=R) [] [] 0) ev) /\
  (forall ev, ~ delegates (Torch.zeros_like (F:=R) 0%nat) ev) /\
  (forall ev, ~ delegates (Torch.ones_like (F:=R) 0%nat) ev) /\
  (forall ev, ~ delegates (Torch.fill_diagonal (F:=R) 0%nat 1%R) ev) /\
  (forall ev, ~ delegates (Torch.flatten (F:=R) 0%nat) ev) /\
  (forall ev, ~ delegates (Torch.dtype (F:=R) 0%nat) ev) /\
  (forall ev, ~ delegates (Torch.mix_inplace 2%R 0%nat 1%nat) ev) /\
  (forall ev, ~ delegates (Torch.square_mix_inplace 2%R 0%nat 1%nat) ev) /\
  (forall ev, ~ delegates (Torch.sqrt_div (F:=R) 0%nat 1%nat) ev) /\
  (forall ev, ~ delegates (Torch.normalize (F:=R) 0%nat) ev) /\
  (forall ev, ~ delegates (Torch.tmax (F:=R) 0%nat (Some 0%nat)) ev) /\
  (forall ev, ~ delegates (Torch.tmin (F:=R) 0%nat (Some 0%nat)) ev) /\
  (forall ev, ~ delegates (Torch.mean (F:=R) 0%nat (Some 0%nat)) ev) /\
  (forall ev, ~ delegates (Torch.var (F:=R) 0%nat (Some 0%nat)) ev) /\
  (forall ev, ~ delegates (Torch.std (F:=R) 0%nat (Some 0%nat)) ev) /\
  (forall ev, ~ delegates (Torch.tsum (F:=R) 0%nat (Some 0%nat)) ev) /\
  (forall ev, ~ delegates (Torch.tprod (F:=R) 0%nat (Some 0%nat)) ev) /\
  (forall ev, ~ delegates (Torch.tany (F:=R) 0%nat (Some 0%nat)) ev) /\
  (forall ev, ~ delegates (Torch.tall (F:=R) 0%nat (Some 0%nat)) ev) /\
  (forall ev, ~ delegates (Torch.allclose (F:=R) 0%nat 1%nat) ev) /\
  (forall ev, ~ delegates (Torch.argmax (F:=R) 0%nat (Some 0%nat)) ev) /\
  (forall ev, ~ delegates (Torch.argmin (F:=R) 0%nat (Some 0%nat)) ev) /\
  (forall ev, ~ delegates (Torch.broadcast (F:=R) 0%nat 1%nat) ev) /\
  (forall ev, ~ delegates (Torch.affine (F:=R) 0%nat 1%nat 0%nat) ev) /\
  (forall ev, ~ delegates (Torch.quadratic (F:=R) 0%nat 1%nat 0%nat) ev) /\
  (forall ev, ~ delegates (Torch.batch_dot (F:=R) 0%nat 1%nat 0%nat 1%nat) ev) /\
  (forall ev, ~ delegates (Torch.batch_outer (F:=R) 0%nat 1%nat) ev) /\
  (forall ev, ~ delegates (Torch.repeat (F:=R) 0%nat 2 0%nat) ev) /\
  (forall ev, ~ delegates (Torch.stack (F:=R) [0%nat] 0%nat) ev) /\
  (forall ev, ~ delegates (Torch.hstack (F:=R) [0%nat]) ev) /\
  (forall ev, ~ delegates (Torch.vstack (F:=R) [0%nat]) ev) /\
  (forall ev, ~ delegates (Torch.trange 0%R 1%R 1%R) ev) /\
  (forall ev, ~ delegates (Torch.squared_euclidean_distance (F:=R) [] []) ev) /\
  (forall ev, ~ delegates (Torch.euclidean_distance (F:=R) [] []) ev) /\
  (forall ev, ~ delegates (Torch.fast_energy_distance (F:=R) [] [] 0) ev).
Proof.
  repeat split; intros ev Hd; apply delegates_single_call in Hd; revert Hd;
    first
      [ (* no call at all, or a raise *)
        solve [intros []]
      | (* the result of the call is discarded *)
        solve [apply (not_single_call_inj _ (fun _ : tref => tt) 0%nat 1%nat);
               [reflexivity | discriminate]]
      | (* one component of the result is selected *)
        solve [apply (not_single_call_inj _ (fun p : tref * tref => VRef (F:=R) (fst p))
                        (0%nat, 0%nat) (0%nat, 1%nat)); [reflexivity | discriminate]]
      | solve [apply (not_single_call_inj _ (fun p : tref * tref => @inl tref Z (snd p))
                        (0%nat, 0%nat) (1%nat, 0%nat)); [reflexivity | discriminate]]
      | (* the result is one case of the wrapper's two *)
        solve [apply (not_single_call_surj _ (fun r : tref => VRef (F:=R) r) VNone);
               discriminate]
      | (* something follows the first call *)
        solve [intros [pf Hk];
               first [ specialize (Hk 0%nat) | specialize (Hk []) | specialize (Hk ""%string)
                     | specialize (Hk 1) ];
               discriminate Hk] ].
Qed.

(** ** Reductions and shapes *)

Section Reductions.
Context {F : Type} `{Scalar F}.



Lemma length_chunks (k n : nat) (l : list F) : length (chunks k n l) = k.
Proof. revert l. induction k; intros l; simpl; [reflexivity | now rewrite IHk]. Qed.




Lemma lookup_alloc (h : list (tensor F)) (t : tensor F) :
  (h ++ [t]) !! length h = Some t.
Proof. rewrite lookup_app_r by lia. now rewrite Nat.sub_diag. Qed.

End Reductions.

(** C3, the code on a failing input. With axis=None, the default, on a
    2 x 2 array the python backend's tsum returns an array of shape (1, 1)
    and the pytorch backend's tsum a Python number, although the python
    module says of its reductions "use keepdims = True so that behavior is
    the same as torch". *)
Theorem tsum_axis_none_shapes_differ :
  result_shape (run (py_call (OTsum 0%nat None)) store2) = Some [1; 1]%nat /\
  result_shape (run (torch_call (OTsum 0%nat None)) store2) = Some [] /\
  result_shape (run (py_call (OTsum 0%nat None)) store2)
  <> result_shape (run (torch_call (OTsum 0%nat None)) store2).
Proof.
  assert (Hp : result_shape (run (py_call (OTsum 0%nat None)) store2) = Some [1; 1]%nat)
    by reflexivity.
  assert (Ht : result_shape (run (torch_call (OTsum 0%nat None)) store2) = Some [])
    by reflexivity.
  rewrite Hp, Ht. repeat split. discriminate.
Qed.

(** ** Array objects that share memory *)

Section Stores.
Context {F : Type} `{Scalar F}.


Lemma length_stored (w : world F) (x : tref) (t : tensor F) :
  length (stored w x t) = length (heap w).
Proof. unfold stored. apply length_imap. Qed.

Lemma lookup_stored (w : world F) (x z : tref) (t : tensor F) :
  stored w x t !! z
  = (fun tz => if decide (owner w z = owner w x)
               then if Bool.eqb (reversed w z) (reversed w x) then t else reversed_axes t
               else tz) <$> heap w !! z.
Proof. unfold stored. apply list_lookup_imap. Qed.


(** An object on other memory is left as it was. *)
Lemma lookup_stored_ne (w : world F) (x z : tref) (t : tensor F) :
  ~ shares w z x -> stored w x t !! z = heap w !! z.
Proof.
  intros Hz. rewrite lookup_stored. destruct (heap w !! z) as [tz |]; [| reflexivity].
  simpl. now rewrite decide_False by exact Hz.
Qed.





Lemma set_heap_set_heap (w : world F) (h1 h2 : list (tensor F)) :
  set_heap (set_heap w h1) h2 = set_heap w h2.
Proof. reflexivity. Qed.

End Stores.

(** ** In-place mixing *)

Section Mixing.
Context {F : Type} `{Scalar F}.









Hypothesis fmul_comm : forall a b : F, fmul a b = fmul b a.


End Mixing.

(** ** The correspondence of the two backends *)

Section Agreement.
Context {F : Type} `{Scalar F}.

Lemma res_mapM_inr_transfer {A B C} (f : A -> res B) (g : A -> res C) (l : list A) (bs : list B) :
  (forall a b, f a = inr b -> exists c, g a = inr c) ->
  res_mapM f l = inr bs -> exists cs, res_mapM g l = inr cs.
Proof.
  intros Hfg. revert bs. induction l as [| a l IH]; intros bs; simpl.
  - eauto.
  - destruct (f a) as [e | b] eqn:Hfa; simpl; [discriminate |].
    destruct (Hfg a b Hfa) as [c ->]. simpl.
    destruct (res_mapM f l) as [e | bs'] eqn:Hl; simpl; [discriminate |].
    destruct (IH bs' eq_refl) as [cs ->]. simpl. eauto.
Qed.


Hypothesis fmul_comm : forall a b : F, fmul a b = fmul b a.



End Agreement.

Ltac run_real := cbv -[Rplus Rmult Rdiv Rinv Rminus Ropp sqrt IZR Rmax Rmin Req_dec_T].


(** Equalities of arrays of real numbers, entry by entry. *)
Ltac real_data :=
  repeat match goal with
  | |- @eq R _ _ => lra
  | |- _ :: _ = _ :: _ => apply (f_equal2 cons)
  | |- @eq (list _) [] [] => reflexivity
  | |- Some _ = Some _ => apply f_equal
  | |- Tensor _ _ _ = Tensor _ _ _ => apply f_equal
  end.



(** C6, the code on failing inputs, in the pytorch backend with w = 2.
    - x and y the same array [1]: x.mul_(w) doubles x before y is read, and
      x ends as [0], while w*x + (1-w)*y is [1], which is what the python
      backend leaves in x.
    - x = [[1,2],[3,4]] and y = transpose(x), a view of x: x.mul_(w) changes
      y as well before y is read, x ends as [[0,-2],[2,0]] while
      w*x + (1-w)*y on the values before the call is [[1,1],[4,4]], and y is
      not left unchanged. *)
Theorem torch_mix_inplace_aliased :
  (exists wd',
     run (Torch.mix_inplace 2%R 0%nat 0%nat) store1 = (inr tt, wd') /\
     heap wd' !! 0%nat = Some (Tensor Float32 [1]%nat [0%R]) /\
     mixed 2%R (Tensor Float32 [1]%nat [1%R]) (Tensor Float32 [1]%nat [1%R])
     = Tensor Float32 [1]%nat [1%R]) /\
  (exists wd',
     run (Py.mix_inplace 2%R 0%nat 0%nat) store1 = (inr tt, wd') /\
     heap wd' !! 0%nat = Some (Tensor Float32 [1]%nat [1%R])) /\
  (exists y wd1 wd',
     run (Torch.transpose 0%nat) store2 = (inr y, wd1) /\
     heap wd1 !! 0%nat = Some (m22 1 2 3 4) /\
     heap wd1 !! y = Some (m22 1 3 2 4) /\
     run (Torch.mix_inplace 2%R 0%nat y) wd1 = (inr tt, wd') /\
     heap wd' !! 0%nat = Some (m22 0 (-2) 2 0) /\
     heap wd' !! y = Some (m22 0 2 (-2) 0) /\
     mixed 2%R (m22 1 2 3 4) (m22 1 3 2 4) = m22 1 1 4 4).
Proof.
  split; [| split].
  - eexists. split; [reflexivity |]. split.
    + run_real. real_data.
    + unfold mixed. simpl. real_data.
  - eexists. split; [reflexivity |].
    run_real. real_data.
  - do 3 eexists. split; [reflexivity |].
    split; [reflexivity |]. split; [reflexivity |]. split; [reflexivity |].
    split; [| split].
    + run_real. real_data.
    + run_real. real_data.
    + unfold mixed, m22. simpl. real_data.
Qed.
(** ** Determinism *)

Section RngFree.

Context {F : Type} {E : Type -> Type}.

Variable h : forall X : Type, E X -> world F -> hres F X.
Variable rnd : forall X : Type, E X -> bool.

Hypothesis h_rng :
  forall X (ev : E X) (w : world F) g n,
    rnd X ev = false ->
    h X ev (with_rng w g n) = (fst (h X ev w), with_rng (snd (h X ev w)) g n).

Lemma run_rng {A} (p : prog E A) :
  rng_free_with rnd p ->
  forall (w : world F) g n,
    run_with h p (with_rng w g n)
    = (fst (run_with h p w), with_rng (snd (run_with h p w)) g n).
Proof.
  induction 1 as [a | e | X ev k Hev Hk IH]; intros w g n; simpl; try reflexivity.
  rewrite (h_rng X ev w g n Hev).
  destruct (h X ev w) as [[e | x] w']; simpl; [reflexivity |].
  apply IH.
Qed.

Lemma rng_free_deterministic {A} (p : prog E A) :
  rng_free_with rnd p -> deterministic_with h p /\ stateless_with h p.
Proof.
  intros Hp. split.
  - intros [h1 v1 g1 n1] [h2 v2 g2 n2] Hh Hv. simpl in Hh, Hv. subst h2 v2.
    change (World h1 v1 g2 n2) with (with_rng (World h1 v1 g1 n1) g2 n2).
    rewrite (run_rng p Hp). simpl. auto.
  - intros [h0 v0 g n].
    change (World h0 v0 g n) with (with_rng (World h0 v0 g n) g n) at 1 3.
    rewrite (run_rng p Hp). simpl. auto.
Qed.

Lemma rng_free_bind {A B} (p : prog E A) (f : A -> prog E B) :
  rng_free_with rnd p -> (forall a, rng_free_with rnd (f a)) ->
  rng_free_with rnd (bind p f).
Proof.
  induction 1; intros Hf; simpl; [apply Hf | constructor |].
  constructor; auto.
Qed.

Lemma rng_free_getitem {A} (l : list A) (i : Z) : rng_free_with rnd (getitem l i).
Proof. unfold getitem. repeat case_match; constructor. Qed.

Lemma rng_free_for_each {A B} (xs : list B) (acc : A) (body : A -> B -> prog E A) :
  (forall a x, rng_free_with rnd (body a x)) -> rng_free_with rnd (for_each xs acc body).
Proof.
  intros Hb. revert acc. induction xs as [| x xs IH]; intros acc; simpl.
  - constructor.
  - apply rng_free_bind; auto.
Qed.

End RngFree.

Ltac rng_free_tac :=
  repeat first
    [ apply rng_free_ret | apply rng_free_throw
    | apply rng_free_for_each; intros
    | apply rng_free_getitem
    | apply rng_free_bind; [| intros]
    | apply rng_free_vis; [reflexivity | intros] ].

Section Determinism.

Context {F : Type} `{Scalar F}.

Lemma ne_eval_rng (w : world F) g p env e :
  ne_eval (with_rng w g p) env e = ne_eval w env e.
Proof.
  induction e; simpl; try (rewrite IHe1, IHe2); reflexivity.
Qed.

Lemma lib_h_rng {X} (ev : lib F X) (w : world F) g p :
  is_random ev = false ->
  lib_h ev (with_rng w g p)
  = (fst (lib_h ev w), with_rng (snd (lib_h ev w)) g p).
Proof.
  intros Hr.
  destruct ev; try discriminate Hr; simpl;
    unfold h_val, h_new, h_set, h_view, h_ne_evaluate, with_t, load; simpl;
    try rewrite ne_eval_rng;
    try reflexivity;
    repeat (case_match; simpl; try reflexivity).
Qed.

Lemma rng_free_py_call (o : op F) :
  (forall mb sm ds, o <> OFastEnergyDistance mb sm ds) -> rng_free (py_call o).
Proof.
  intros Ho. destruct o; try (exfalso; eapply Ho; reflexivity);
    unfold py_call, ret_with, Py.euclidean_distance, Py.squared_euclidean_distance;
    rng_free_tac.
Qed.

Lemma rng_free_torch_call (o : op F) : rng_free (torch_call o).
Proof.
  destruct o; try destruct axis;
    unfold torch_call, ret_with, Torch.mean, Torch.var, Torch.std, Torch.tsum,
      Torch.tprod, Torch.tany, Torch.tall, Torch.tmax, Torch.tmin, Torch.reduce_with;
    rng_free_tac.
Qed.

Lemma libx_h_rng (xh : ext_handler) {X} (e : libx F X) (w : world F) g n :
  is_random_x e = false ->
  libx_h xh e (with_rng w g n)
  = (fst (libx_h xh e w), with_rng (snd (libx_h xh e w)) g n).
Proof.
  destruct e as [X e | X e]; simpl; intros Hr.
  - now apply lib_h_rng.
  - unfold objects_of. simpl. destruct (xh X e (heap w, views w)); reflexivity.
Qed.

Lemma rng_free_lift {A} (p : prog (lib F) A) :
  rng_free p -> rng_free_with (@is_random_x F) (lift p).
Proof. induction 1; simpl; constructor; auto. Qed.

Lemma rng_free_py_xcall (o : xop F) :
  rng_free_with (@is_random_x F) (projT2 (py_xcall o)).
Proof.
  destruct o; simpl;
    unfold Py.clip_inplace, Py.affine, Py.quadratic, callm, callx, call;
    rng_free_tac.
Qed.

Lemma rng_free_torch_xcall (o : xop F) :
  rng_free_with (@is_random_x F) (projT2 (torch_xcall o)).
Proof.
  destruct o; try destruct axis; simpl;
    unfold Torch.fill_diagonal, Torch.flatten, Torch.allclose, Torch.argmax,
      Torch.argmin, Torch.affine, Torch.broadcast, Torch.quadratic,
      callm, callx, call;
    simpl; rng_free_tac.
Qed.

(** C7, as amended. Every operation of the pytorch backend, and every
    operation of the python backend other than fast_energy_distance,
    neither reads nor writes the state of the library's global generator:
    equal arguments and equal array contents give equal results and equal
    array contents afterwards, and the generator is left as it was.  For
    the operations whose library calls are not given a meaning this holds
    for every meaning of those calls that reads and writes the array
    objects only.  (Equal array contents include which objects are views of
    which.) *)
Theorem operations_deterministic (xh : ext_handler) (o : op F) (x : xop F) :
  (deterministic (torch_call o) /\ stateless (torch_call o)) /\
  ((forall mb sm ds, o <> OFastEnergyDistance mb sm ds) ->
   deterministic (py_call o) /\ stateless (py_call o)) /\
  (deterministic_with (@libx_h F H xh) (projT2 (py_xcall x)) /\
   stateless_with (@libx_h F H xh) (projT2 (py_xcall x))) /\
  (deterministic_with (@libx_h F H xh) (projT2 (torch_xcall x)) /\
   stateless_with (@libx_h F H xh) (projT2 (torch_xcall x))) /\
  (forall vec mat,
     deterministic_with (@libx_h F H xh) (Torch.broadcast (F:=F) vec mat) /\
     stateless_with (@libx_h F H xh) (Torch.broadcast (F:=F) vec mat)).
Proof.
  split; [| split; [| split; [| split]]].
  - apply (rng_free_deterministic (@lib_h F H) (@is_random F)
             (fun X ev w g n Hr => @lib_h_rng X ev w g n Hr)), rng_free_torch_call.
  - intros Ho. now apply (rng_free_deterministic (@lib_h F H) (@is_random F)
             (fun X ev w g n Hr => @lib_h_rng X ev w g n Hr)), rng_free_py_call.
  - apply (rng_free_deterministic (@libx_h F H xh) (@is_random_x F)
             (fun X ev w g n Hr => @libx_h_rng xh X ev w g n Hr)), rng_free_py_xcall.
  - apply (rng_free_deterministic (@libx_h F H xh) (@is_random_x F)
             (fun X ev w g n Hr => @libx_h_rng xh X ev w g n Hr)), rng_free_torch_xcall.
  - intros vec mat.
    apply (rng_free_deterministic (@libx_h F H xh) (@is_random_x F)
             (fun X ev w g n Hr => @libx_h_rng xh X ev w g n Hr)).
    unfold Torch.broadcast, callx, call. simpl. rng_free_tac.
Qed.

End Determinism.

Lemma operations_deterministic_witness :
  deterministic (py_call (F:=R) (OTsum 0%nat None)) /\
  stateless (py_call (F:=R) (OTsum 0%nat None)).
Proof.
  apply (proj1 (proj2 (@operations_deterministic R R_scalar
                         (fun X _ s => (inl NotImplementedError, s))
                         (OTsum 0%nat None) (XSign 0%nat)))).
  intros mb sm ds. discriminate.
Defined.

(** ** The energy distance on concrete inputs *)

Lemma dist1 (a b c : R) :
  (0 <= c)%R -> ((a - b) * (a - b) = c * c)%R -> sqrt (0 + (a - b) * (a - b)) = c.
Proof. intros Hc Hsq. rewrite Rplus_0_l, Hsq. now apply sqrt_square. Qed.

Ltac eval_sqrt :=
  repeat match goal with
  | |- context [sqrt (0 + (?a - ?b) * (?a - ?b))%R] =>
      first [ rewrite (dist1 a b 0%R) by lra
            | rewrite (dist1 a b 1%R) by lra
            | rewrite (dist1 a b 3%R) by lra
            | rewrite (dist1 a b 4%R) by lra ]
  end.

(** C7, the claim as stated fails: two consecutive calls of the python
    backend's fast_energy_distance on the same two matrices, with the same
    array contents, return 0 and then 2, and each call advances the
    library's global generator. *)
Lemma fast_energy_distance_not_deterministic :
  exists w1 w2 r1 r2,
    run (Py.fast_energy_distance [[0]; [1]]%R [[0]; [0]]%R 2)
        (draws [0; 0; 0; 0; 1; 1; 0; 0]%nat) = (inr r1, w1) /\
    run (Py.fast_energy_distance [[0]; [1]]%R [[0]; [0]]%R 2) w1 = (inr r2, w2) /\
    heap w1 = heap (draws [0; 0; 0; 0; 1; 1; 0; 0]%nat) /\
    r1 = 0%R /\ r2 = 2%R /\ r1 <> r2 /\
    rng_pos w1 <> rng_pos (draws [0; 0; 0; 0; 1; 1; 0; 0]%nat).
Proof.
  do 4 eexists.
  split; [run_real; reflexivity |].
  split; [run_real; reflexivity |].
  split; [reflexivity |].
  split; [eval_sqrt; lra |].
  split; [eval_sqrt; lra |].
  split; [eval_sqrt; lra | simpl; lia].
Qed.

(** C2, the code on a failing input. With minibatch [[0],[4]], samples
    [[0],[1]], downsample 2 and the draws index_1 = [1,0], index_2 = [0,1],
    fast_energy_distance returns 0, while 2*d3 - d2 - d1 on the two
    subsamples is -1: the loop that accumulates d2 reads its first row
    through index_1 instead of index_2. *)
Theorem fast_energy_distance_d2_reads_index_1 :
  fst (lib_h (np_random_choice [0; 1] 2) (draws [1; 0; 0; 1]%nat)) = inr [1; 0] /\
  fst (lib_h (np_random_choice [0; 1] 2) (World [] [] (fun k => nth k [1; 0; 0; 1]%nat 0%nat) 2))
  = inr [0; 1] /\
  (exists w' r,
     run (Py.fast_energy_distance [[0]; [4]]%R [[0]; [1]]%R 2) (draws [1; 0; 0; 1]%nat)
     = (inr r, w') /\ r = 0%R) /\
  energy_distance_of (select [[0]; [4]]%R [1; 0]) (select [[0]; [1]]%R [0; 1]) = (-1)%R.
Proof.
  split; [reflexivity |]. split; [reflexivity |]. split.
  - do 2 eexists. split; [run_real; reflexivity |]. eval_sqrt. lra.
  - run_real. eval_sqrt. lra.
Qed.

(** C9, the code on a failing input. With a minibatch of three rows, samples
    of two rows, downsample 100 and the draws index_1 = [2,2,2],
    index_2 = [0,1], the loop that accumulates d2 indexes samples with
    index_1[0] = 2, which is not below len(samples) = 2. *)
Theorem fast_energy_distance_index_out_of_bounds :
  fst (lib_h (np_random_choice [0; 1; 2] 3) (draws [2; 2; 2; 0; 1]%nat)) = inr [2; 2; 2] /\
  fst (run (Py.fast_energy_distance [[0]; [4]; [5]]%R [[0]; [1]]%R 100)
           (draws [2; 2; 2; 0; 1]%nat))
  = inl IndexError.
Proof. split; vm_compute; reflexivity. Qed.

(** ** batch_dot *)

Section BatchDot.

Context {F : Type} `{Scalar F}.

Lemma res_mapM_inr {A B} (f : A -> B) (l : list A) :
  res_mapM (fun a => inr (f a)) l = inr (map f l).
Proof. induction l as [| a l IH]; simpl; [reflexivity | now rewrite IH]. Qed.

Lemma chunks_zip_with (f : F -> F -> F) (k n : nat) (a b : list F) :
  chunks k n (zip_with f a b) = zip_with (zip_with f) (chunks k n a) (chunks k n b).
Proof.
  revert a b. induction k as [| k IH]; intros a b; simpl; [reflexivity |].
  now rewrite zip_with_take, zip_with_drop, IH.
Qed.

Lemma chunks_concat (k n : nat) (rows : list (list F)) :
  length rows = k -> Forall (fun r => length r = n) rows ->
  chunks k n (concat rows) = rows.
Proof.
  revert rows. induction k as [| k IH]; intros [| r rows] Hk Hr; simpl in *; try discriminate.
  - reflexivity.
  - inversion Hr as [| ? ? Hlen Hrest]; subst.
    rewrite take_app_length, drop_app_length. f_equal. apply IH; [lia | assumption].
Qed.

Lemma chunks_lengths (k n : nat) (l : list F) :
  length l = (k * n)%nat -> Forall (fun r => length r = n) (chunks k n l).
Proof.
  revert l. induction k as [| k IH]; intros l Hl; simpl; constructor.
  - rewrite length_take. lia.
  - apply IH. rewrite length_drop. lia.
Qed.

Lemma chunks_singletons (l : list F) :
  map (fun r => nth 0 r fzero) (chunks (length l) 1 l) = l.
Proof. induction l as [| x l IH]; simpl; [reflexivity |]. rewrite drop_0. now rewrite IH. Qed.

Lemma cols1_chunks (m : nat) (blk : list F) :
  length blk = m -> cols 1 (chunks m 1 blk) = [blk].
Proof. intros <-. unfold cols. simpl. now rewrite chunks_singletons. Qed.


Lemma res_mapM_Forall {A B} (f : A -> res B) (g : A -> B) (l : list A) :
  Forall (fun a => f a = inr (g a)) l -> res_mapM f l = inr (map g l).
Proof.
  induction 1 as [| a l Ha _ IH]; simpl; [reflexivity |]. now rewrite Ha, IH.
Qed.

Lemma concat_singletons {A B} (f : A -> B) (l : list A) :
  concat (map (fun a => [f a]) l) = map f l.
Proof. induction l as [| a l IH]; simpl; [reflexivity | now rewrite IH]. Qed.

Lemma sum_axis1 (L M : nat) (data : list F) :
  length data = (L * M)%nat ->
  reduce_data RSum [L; M] 1 data = inr (map fsum (chunks L M data)).
Proof.
  intros Hlen. unfold reduce_data.
  replace (numel (take 1 [L; M])) with L by (simpl; lia).
  replace (numel (drop 2 [L; M])) with 1%nat by reflexivity.
  replace (nth 1 [L; M] 0%nat) with M by reflexivity.
  rewrite Nat.mul_1_r.
  rewrite (res_mapM_Forall _ (fun blk => [fsum blk])).
  - simpl. now rewrite concat_singletons.
  - eapply Forall_impl; [apply (chunks_lengths L M data Hlen) |].
    intros blk Hblk. cbv beta. now rewrite (cols1_chunks M blk Hblk).
Qed.

Lemma length_concat_uniform (k n : nat) (rows : list (list F)) :
  length rows = k -> Forall (fun r => length r = n) rows ->
  length (concat rows) = (k * n)%nat.
Proof.
  intros <-. induction 1 as [| r rows Hr _ IH]; simpl; [reflexivity |].
  rewrite length_app, Hr, IH. lia.
Qed.

Lemma lookup_alloc' (h l : list (tensor F)) (t : tensor F) :
  (h ++ t :: l) !! length h = Some t.
Proof. rewrite lookup_app_r by lia. now rewrite Nat.sub_diag. Qed.

(** C10. In the python backend, for an L x N matrix vis, an N x M matrix W
    and an L x M matrix hid, batch_dot(vis, W, hid) with axis 1 returns a
    new float32 vector of length L whose i-th entry is v_i^T W h_i for
    row i of vis and row i of hid; the arguments are left unchanged. *)
Theorem batch_dot_quadratic_form (w : world F) (vis W hid : tref)
    (V Wt Hd : tensor F) (L N M : nat) :
  heap w !! vis = Some V -> heap w !! W = Some Wt -> heap w !! hid = Some Hd ->
  t_shape V = [L; N] -> t_shape Wt = [N; M] -> t_shape Hd = [L; M] ->
  wf_tensor V -> wf_tensor Wt -> wf_tensor Hd ->
  exists r w' data,
    run (Py.batch_dot vis W hid 1) w = (inr r, w') /\
    heap w' !! r = Some (Tensor Float32 [L] data) /\
    length data = L /\
    take (length (heap w)) (heap w') = heap w /\
    forall i, (i < L)%nat ->
      exists v h,
        rows_of V !! i = Some v /\ rows_of Hd !! i = Some h /\
        data !! i = Some (quadratic_form M v (rows_of Wt) h).
Proof.
  intros Hvis HW Hhid HsV HsW HsH HwV HwW HwH.
  unfold wf_tensor in *. rewrite HsV in HwV. rewrite HsW in HwW. rewrite HsH in HwH.
  simpl in HwV, HwW, HwH. rewrite Nat.mul_1_r in HwV, HwW, HwH.
  set (bc := cols M (chunks N M (t_data Wt))).
  set (rowsP := map (fun r => map (dotv r) bc) (chunks L N (t_data V))).
  assert (HP : Forall (fun r => length r = M) rowsP).
  { apply Forall_forall. intros r Hr. apply list_elem_of_fmap in Hr as [r0 [-> _]].
    unfold bc, cols. now rewrite !length_map, length_seq. }
  assert (HlenP : length rowsP = L) by (unfold rowsP; now rewrite length_map, length_chunks).
  set (dataQ := zip_with fmul (concat rowsP) (t_data Hd)).
  assert (HlenQ : length dataQ = (L * M)%nat).
  { unfold dataQ. rewrite length_zip_with, HwH.
    rewrite (length_concat_uniform L M rowsP HlenP HP). lia. }
  set (P := Tensor (t_dtype V) [L; M] (concat rowsP)).
  set (Q := Tensor (t_dtype V) [L; M] dataQ).
  set (S := Tensor (t_dtype V) [L] (map fsum (chunks L M dataQ))).
  set (T := Tensor Float32 [L] (map fsum (chunks L M dataQ))).
  assert (H1 : lib_h (np_dot vis W) w = (inr (length (heap w)), set_heap w (heap w ++ [P]))).
  { simpl. unfold load. rewrite Hvis, HW. simpl. unfold matmul.
    rewrite HsV, HsW. rewrite decide_True by reflexivity. reflexivity. }
  assert (H2 : lib_h (np_mul (length (heap w)) hid) (set_heap w (heap w ++ [P]))
               = (inr (length (heap w) + 1)%nat, set_heap w (heap w ++ [P; Q]))).
  { simpl. unfold load. simpl. rewrite lookup_alloc'.
    rewrite lookup_app_l by (eapply lookup_lt_Some; eauto). rewrite Hhid. simpl.
    unfold tzip. simpl. rewrite HsH. rewrite decide_True by reflexivity.
    unfold set_heap. simpl. rewrite length_app, <- app_assoc. simpl. reflexivity. }
  assert (H3 : lib_h (np_reduce RSum (length (heap w) + 1)%nat (Some 1%nat) false)
                     (set_heap w (heap w ++ [P; Q]))
               = (inr (length (heap w) + 2)%nat, set_heap w (heap w ++ [P; Q; S]))).
  { simpl. unfold load. simpl.
    replace (heap w ++ [P; Q]) with ((heap w ++ [P]) ++ [Q]) by now rewrite <- app_assoc.
    replace (length (heap w) + 1)%nat with (length (heap w ++ [P])) by (rewrite length_app; reflexivity).
    rewrite lookup_alloc'. simpl. unfold reduce_axis. simpl t_shape.
    rewrite decide_True by (simpl; lia). simpl t_data.
    rewrite (sum_axis1 L M dataQ HlenQ). simpl.
    unfold set_heap. simpl. rewrite !length_app, <- !app_assoc. simpl.
    replace (length (heap w) + 1 + 1)%nat with (length (heap w) + 2)%nat by lia. reflexivity. }
  assert (H4 : lib_h (np_astype (length (heap w) + 2)%nat Float32) (set_heap w (heap w ++ [P; Q; S]))
               = (inr (length (heap w) + 3)%nat, set_heap w (heap w ++ [P; Q; S; T]))).
  { simpl. unfold load. simpl.
    replace (heap w ++ [P; Q; S]) with ((heap w ++ [P; Q]) ++ [S]) by now rewrite <- app_assoc.
    replace (length (heap w) + 2)%nat with (length (heap w ++ [P; Q])) by (rewrite length_app; reflexivity).
    rewrite lookup_alloc'. simpl.
    unfold set_heap. simpl. rewrite !length_app, <- !app_assoc. simpl.
    replace (length (heap w) + 2 + 1)%nat with (length (heap w) + 3)%nat by lia. reflexivity. }
  exists (length (heap w) + 3)%nat, (set_heap w (heap w ++ [P; Q; S; T])), (map fsum (chunks L M dataQ)).
  split; [| split; [| split; [| split]]].
  - unfold Py.batch_dot. rewrite run_bind, run_call, H1.
    rewrite run_bind, run_call, H2. rewrite run_bind, run_call, H3.
    rewrite run_call, H4. reflexivity.
  - simpl.
    replace (heap w ++ [P; Q; S; T]) with ((heap w ++ [P; Q; S]) ++ [T]) by now rewrite <- app_assoc.
    replace (length (heap w) + 3)%nat with (length (heap w ++ [P; Q; S])) by (rewrite length_app; reflexivity).
    apply lookup_alloc'.
  - now rewrite length_map, length_chunks.
  - simpl. apply take_app_length.
  - intros i Hi.
    destruct (lookup_lt_is_Some_2 (rows_of V) i) as [v Hv];
      [unfold rows_of; rewrite HsV, length_chunks; exact Hi |].
    destruct (lookup_lt_is_Some_2 (rows_of Hd) i) as [h Hh];
      [unfold rows_of; rewrite HsH, length_chunks; exact Hi |].
    exists v, h. split; [exact Hv |]. split; [exact Hh |].
    unfold rows_of in Hv, Hh. rewrite HsV in Hv. rewrite HsH in Hh.
    rewrite list_lookup_fmap. unfold dataQ.
    rewrite chunks_zip_with, (chunks_concat L M rowsP HlenP HP).
    rewrite lookup_zip_with. unfold rowsP. rewrite list_lookup_fmap, Hv, Hh. simpl.
    unfold quadratic_form, vecmat, rows_of. rewrite HsW. reflexivity.
Qed.
End BatchDot.

Lemma batch_dot_quadratic_form_witness :
  exists r w' data,
    run (Py.batch_dot 0%nat 1%nat 0%nat 1%nat) store2 = (inr r, w') /\
    heap w' !! r = Some (Tensor Float32 [2]%nat data) /\
    length data = 2%nat /\
    take (length (heap store2)) (heap w') = heap store2 /\
    forall i, (i < 2)%nat ->
      exists v h,
        rows_of (m22 1 2 3 4) !! i = Some v /\ rows_of (m22 1 2 3 4) !! i = Some h /\
        data !! i = Some (quadratic_form 2 v (rows_of (m22 1 0 0 1)) h).
Proof.
  apply (@batch_dot_quadratic_form R R_scalar store2 0%nat 1%nat 0%nat
           (m22 1 2 3 4) (m22 1 0 0 1) (m22 1 2 3 4) 2%nat 2%nat 2%nat);
    reflexivity.
Defined.

(** The same loop also reads index_1 past its end when samples has at least
    two more rows than minibatch: with two and four rows it evaluates
    index_1[2] while index_1 has two entries. *)
Lemma fast_energy_distance_index_1_overrun :
  fst (run (Py.fast_energy_distance [[0]; [4]]%R [[0]; [1]; [2]; [3]]%R 100)
           (draws [0; 1; 0; 1; 2; 3]%nat))
  = inl IndexError.
Proof. vm_compute. reflexivity. Qed.
(** ** The numba kernels *)

Section Kernels.
Context {F : Type} `{Scalar F}.

Lemma run_for_each_pure {A B} (xs : list B) (body : A -> B -> prog (lib F) A)
    (f : A -> B -> A) (w : world F) :
  (forall a x, In x xs -> run (body a x) w = (inr (f a x), w)) ->
  forall acc, run (for_each xs acc body) w = (inr (fold_left f xs acc), w).
Proof.
  induction xs as [| x xs IH]; intros Hb acc; simpl; [reflexivity |].
  rewrite run_bind, Hb by now left. apply IH. intros a y Hy. apply Hb. now right.
Qed.

Lemma run_getitem {A} (l : list A) (i : nat) (x : A) (w : world F) :
  l !! i = Some x -> run (getitem l (Z.of_nat i)) w = (inr x, w).
Proof.
  intros Hx. unfold getitem.
  destruct (Z.of_nat i <? 0) eqn:Hneg; [apply Z.ltb_lt in Hneg; lia |].
  rewrite Hneg, Nat2Z.id, Hx. reflexivity.
Qed.

Lemma fold_left_fmap {A B C} (f : A -> B -> A) (g : C -> B) (l : list C) (a : A) :
  fold_left f (map g l) a = fold_left (fun a x => f a (g x)) l a.
Proof. revert a. induction l as [| x l IH]; intros a; simpl; [reflexivity | apply IH]. Qed.

Lemma fold_left_same {A B} (f g : A -> B -> A) (l : list B) (a : A) :
  (forall a x, f a x = g a x) -> fold_left f l a = fold_left g l a.
Proof.
  intros Hfg. revert a. induction l as [| x l IH]; intros a; simpl; [reflexivity |].
  now rewrite Hfg, IH.
Qed.

Lemma range_0 (n : nat) : range 0 (Z.of_nat n) = map Z.of_nat (seq 0 n).
Proof. unfold range. rewrite Z.sub_0_r, Nat2Z.id. apply map_ext. intros; lia. Qed.

Lemma fold_sqdiff (a b : list F) (acc : F) (k : nat) (pa pb : list F) :
  length pa = k -> length pb = k -> (length a <= length b)%nat ->
  fold_left (fun r i => fadd r (sqdiff (nth i (pa ++ a) fzero) (nth i (pb ++ b) fzero)))
            (seq k (length a)) acc
  = fold_left fadd (zip_with sqdiff a b) acc.
Proof.
  revert b acc k pa pb. induction a as [| x a IH]; intros b acc k pa pb Hpa Hpb Hlen.
  - reflexivity.
  - destruct b as [| y b]; [simpl in Hlen; lia |]. simpl.
    rewrite !app_nth2 by lia. rewrite Hpa, Hpb, Nat.sub_diag. simpl.
    specialize (IH b (fadd acc (sqdiff x y)) (S k) (pa ++ [x]) (pb ++ [y])).
    rewrite <- !app_assoc in IH. simpl in IH. apply IH.
    + rewrite length_app. simpl. lia.
    + rewrite length_app. simpl. lia.
    + simpl in Hlen. lia.
Qed.

Lemma run_squared_euclidean_distance (a b : list F) (w : world F) :
  (length a <= length b)%nat ->
  run (Py.squared_euclidean_distance a b) w = (inr (fsum (zip_with sqdiff a b)), w).
Proof.
  intros Hlen. unfold Py.squared_euclidean_distance, Py.len.
  rewrite range_0.
  rewrite (run_for_each_pure _ _
             (fun r i => fadd r (sqdiff (nth (Z.to_nat i) a fzero) (nth (Z.to_nat i) b fzero)))).
  - rewrite fold_left_fmap.
    rewrite (fold_left_same _ (fun r i => fadd r (sqdiff (nth i ([] ++ a) fzero) (nth i ([] ++ b) fzero)))).
    + now rewrite (fold_sqdiff a b fzero 0 [] []).
    + intros r i. now rewrite Nat2Z.id.
  - intros r i Hi. apply in_map_iff in Hi as [k [<- Hk]]. apply in_seq in Hk.
    rewrite Nat2Z.id.
    destruct (lookup_lt_is_Some_2 a k) as [x Hx]; [lia |].
    destruct (lookup_lt_is_Some_2 b k) as [y Hy]; [lia |].
    rewrite run_bind, (run_getitem a k x w Hx).
    rewrite run_bind, (run_getitem b k y w Hy). simpl.
    rewrite (nth_lookup_Some _ _ _ _ Hx), (nth_lookup_Some _ _ _ _ Hy). reflexivity.
Qed.

(** X1. For a row a and a row b with at least as many entries,
    squared_euclidean_distance(a, b) returns the sum over the entries of a
    of (a[i] - b[i])**2, accumulated from the left starting at 0; entries of
    b beyond len(a) are not read, and nothing else is touched. *)
Theorem squared_euclidean_distance_value (a b : list F) (w : world F) :
  (length a <= length b)%nat ->
  run (Py.squared_euclidean_distance a b) w = (inr (fsum (zip_with sqdiff a b)), w).
Proof. exact (run_squared_euclidean_distance a b w). Qed.

Lemma run_euclidean_distance (a b : list F) (w : world F) :
  (length a <= length b)%nat ->
  run (Py.euclidean_distance a b) w = (inr (dist a b), w).
Proof.
  intros Hlen. unfold Py.euclidean_distance.
  rewrite run_bind, (run_squared_euclidean_distance a b w Hlen). reflexivity.
Qed.

(** X2. For a row a and a row b with at least as many entries,
    euclidean_distance(a, b) returns the square root of the sum of the
    squared differences of their entries and raises nothing. *)
Theorem euclidean_distance_value (a b : list F) (w : world F) :
  (length a <= length b)%nat ->
  run (Py.euclidean_distance a b) w = (inr (dist a b), w).
Proof. exact (run_euclidean_distance a b w). Qed.

Lemma zip_with_sqdiff_flip (a b : list F) :
  (forall x y : F, sqdiff x y = sqdiff y x) ->
  zip_with sqdiff a b = zip_with sqdiff b a.
Proof.
  intros Hs. revert b. induction a as [| x a IH]; intros [| y b]; simpl; try reflexivity.
  now rewrite Hs, IH.
Qed.

(** X3. euclidean_distance is symmetric on rows of equal length:
    euclidean_distance(a, b) and euclidean_distance(b, a) give the same
    result, provided (x - y)*(x - y) = (y - x)*(y - x) for the scalars. *)
Theorem euclidean_distance_symmetric (a b : list F) (w : world F) :
  (forall x y : F, fmul (fsub x y) (fsub x y) = fmul (fsub y x) (fsub y x)) ->
  length a = length b ->
  run (Py.euclidean_distance a b) w = run (Py.euclidean_distance b a) w.
Proof.
  intros Hs Hlen.
  rewrite !run_euclidean_distance by lia.
  unfold dist. fold sqdiff. now rewrite (zip_with_sqdiff_flip a b Hs).
Qed.

Lemma in_range (a b x : Z) : In x (range a b) <-> a <= x < b.
Proof.
  unfold range. rewrite in_map_iff. split.
  - intros [k [<- Hk]]. apply in_seq in Hk. lia.
  - intros Hx. exists (Z.to_nat (x - a)). split; [lia |]. apply in_seq. lia.
Qed.

Lemma in_pairs (n i j : Z) : In (i, j) (pairs n) <-> 0 <= i /\ i < j /\ j < n.
Proof.
  unfold pairs. rewrite in_flat_map. split.
  - intros [i' [Hi Hj]]. apply in_map_iff in Hj as [j' [Heq Hj]].
    injection Heq as <- <-. apply in_range in Hi, Hj. lia.
  - intros Hij. exists i. split; [apply in_range; lia |].
    apply in_map_iff. exists j. split; [reflexivity | apply in_range; lia].
Qed.

Lemma fold_left_flat_map {A B C} (g : A -> C -> A) (k : B -> list C) (l : list B) (a : A) :
  fold_left g (flat_map k l) a = fold_left (fun a x => fold_left g (k x) a) l a.
Proof.
  revert a. induction l as [| x l IH]; intros a; simpl; [reflexivity |].
  now rewrite fold_left_app, IH.
Qed.

(** The two nested loops over [i < j < n]. *)
Lemma run_pair_loops (n : Z) (body : Z -> Z -> F -> prog (lib F) F) (D : Z * Z -> F)
    (acc : F) (w : world F) :
  (forall i j d, In (i, j) (pairs n) -> run (body i j d) w = (inr (fadd d (D (i, j))), w)) ->
  run (for_each (range 0 (n - 1)) acc (fun d i =>
         for_each (range (i + 1) n) d (fun d j => body i j d))) w
  = (inr (fold_left fadd (map D (pairs n)) acc), w).
Proof.
  intros Hb.
  rewrite (run_for_each_pure _ _
             (fun d i => fold_left (fun d j => fadd d (D (i, j))) (range (i + 1) n) d)).
  - f_equal. f_equal. unfold pairs. rewrite fold_left_fmap, fold_left_flat_map.
    apply fold_left_same. intros a i. now rewrite fold_left_fmap.
  - intros d i Hi. apply run_for_each_pure. intros d' j Hj. apply Hb.
    apply in_range in Hi, Hj. apply in_pairs. lia.
Qed.

Lemma run_getitem_Z {A} (l : list A) (i : Z) (x : A) (w : world F) :
  0 <= i -> l !! Z.to_nat i = Some x -> run (getitem l i) w = (inr x, w).
Proof.
  intros Hi Hx. rewrite <- (Z2Nat.id i Hi). now apply run_getitem.
Qed.


Lemma length_range (a b : Z) : length (range a b) = Z.to_nat (b - a).
Proof. unfold range. now rewrite length_map, length_seq. Qed.

Lemma nth_range_0 (L k : nat) : (k < L)%nat -> nth k (range 0 (Z.of_nat L)) 0 = Z.of_nat k.
Proof.
  intros Hk. rewrite range_0.
  rewrite (nth_indep _ 0 (Z.of_nat 0)) by now rewrite length_map, length_seq.
  rewrite map_nth, seq_nth by exact Hk. reflexivity.
Qed.

Lemma choice_range (w : world F) (L : nat) (size : Z) :
  (0 < L)%nat -> 0 <= size ->
  lib_h (np_random_choice (range 0 (Z.of_nat L)) size) w
  = (inr (choice_indices w L (Z.to_nat size)),
     World (heap w) (views w) (rng_seq w) (rng_pos w + Z.to_nat size)).
Proof.
  intros HL Hsize. simpl. unfold h_random_choice.
  destruct (size <? 0) eqn:Hneg; [apply Z.ltb_lt in Hneg; lia |].
  assert (Hlen : length (range 0 (Z.of_nat L)) = L)
    by (rewrite length_range; lia).
  destruct (range 0 (Z.of_nat L)) as [| z l] eqn:Hr; [simpl in Hlen; lia |].
  rewrite <- Hr in Hlen |- *. f_equal. f_equal. unfold choice_indices. apply map_ext. intros t.
  rewrite Hlen. apply nth_range_0. apply Nat.mod_upper_bound. lia.
Qed.

Lemma choice_indices_length (w : world F) (L k : nat) : length (choice_indices w L k) = k.
Proof. unfold choice_indices. now rewrite length_map, length_seq. Qed.

Lemma choice_indices_bound (w : world F) (L k : nat) :
  (0 < L)%nat -> Forall (fun i => 0 <= i < Z.of_nat L) (choice_indices w L k).
Proof.
  intros HL. apply Forall_forall. intros i Hi. apply list_elem_of_In in Hi.
  unfold choice_indices in Hi. apply in_map_iff in Hi as [t [<- _]].
  pose proof (Nat.mod_upper_bound (rng_seq w (rng_pos w + t)) L). lia.
Qed.


Lemma row_lookup (m : list (list F)) (i : Z) (c : nat) :
  Forall (fun r => length r = c) m -> 0 <= i < Py.len m ->
  m !! Z.to_nat i = Some (row m i) /\ length (row m i) = c.
Proof.
  intros Hm Hi. unfold Py.len in Hi.
  destruct (lookup_lt_is_Some_2 m (Z.to_nat i)) as [r Hr]; [lia |].
  unfold row. rewrite (nth_lookup_Some _ _ _ _ Hr). split; [exact Hr |].
  eapply Forall_lookup_1 in Hm; eauto.
Qed.

Lemma zat_lookup (l : list Z) (i : Z) (P : Z -> Prop) :
  Forall P l -> 0 <= i < Py.len l ->
  l !! Z.to_nat i = Some (zat l i) /\ P (zat l i).
Proof.
  intros Hl Hi. unfold Py.len in Hi.
  destruct (lookup_lt_is_Some_2 l (Z.to_nat i)) as [r Hr]; [lia |].
  unfold zat. rewrite (nth_lookup_Some _ _ _ _ Hr). split; [exact Hr |].
  eapply Forall_lookup_1 in Hl; eauto.
Qed.

(** One step of a distance loop: two rows are fetched through two index
    lists and their distance is added. *)
Lemma run_distance_step (ma mb : list (list F)) (ia ib : list Z) (i j : Z) (d : F)
    (c : nat) (w : world F) :
  Forall (fun r => length r = c) ma -> Forall (fun r => length r = c) mb ->
  Forall (fun k => 0 <= k < Py.len ma) ia -> Forall (fun k => 0 <= k < Py.len mb) ib ->
  0 <= i < Py.len ia -> 0 <= j < Py.len ib ->
  run (let* i1 := getitem ia i in
       let* a := getitem ma i1 in
       let* j1 := getitem ib j in
       let* b := getitem mb j1 in
       let* x := Py.euclidean_distance a b in
       Ret (fadd d x)) w
  = (inr (fadd d (dist (row ma (zat ia i)) (row mb (zat ib j)))), w).
Proof.
  intros Hma Hmb Hia Hib Hi Hj.
  destruct (zat_lookup ia i _ Hia Hi) as [Hi1 Hb1].
  destruct (zat_lookup ib j _ Hib Hj) as [Hj1 Hb2].
  destruct (row_lookup ma (zat ia i) c Hma Hb1) as [Hra Hla].
  destruct (row_lookup mb (zat ib j) c Hmb Hb2) as [Hrb Hlb].
  rewrite run_bind, (run_getitem_Z ia i _ w) by (lia || exact Hi1).
  rewrite run_bind, (run_getitem_Z ma _ _ w) by (lia || exact Hra).
  rewrite run_bind, (run_getitem_Z ib j _ w) by (lia || exact Hj1).
  rewrite run_bind, (run_getitem_Z mb _ _ w) by (lia || exact Hrb).
  rewrite run_bind, run_euclidean_distance by lia. reflexivity.
Qed.

Lemma run_truediv (x : F) (d : Z) (w : world F) :
  d <> 0 -> run (Py.truediv x d) w = (inr (fdiv x (of_Z d)), w).
Proof.
  intros Hd. unfold Py.truediv. destruct (d =? 0) eqn:Hz; [apply Z.eqb_eq in Hz; lia |].
  reflexivity.
Qed.

(** X4. What fast_energy_distance computes.  For two matrices with the same
    number of columns, with n >= 2, len(minibatch) <= len(samples) and
    m <= n + 1 (n and m the two subsample sizes), the call raises nothing,
    draws n row numbers index_1 of minibatch and then m row numbers index_2
    of samples from the global generator, and returns 2*d3 - d2 - d1 where
    d1 is twice the sum of the distances minibatch[index_1[i]] to
    minibatch[index_1[j]] over i < j < n divided by n*n - n, d3 is the sum
    of the distances minibatch[i] to samples[j] over i in index_1 and j in
    index_2 divided by n*m, and d2 is twice the sum of the distances
    samples[index_1[i]] to samples[index_2[j]] over i < j < m divided by
    m*m - m. *)
Theorem fast_energy_distance_value (minibatch samples : list (list F)) (downsample : Z)
    (c : nat) (w : world F) :
  let n := Z.min (Py.len minibatch) downsample in
  let m := Z.min (Py.len samples) downsample in
  Forall (fun r => length r = c) minibatch ->
  Forall (fun r => length r = c) samples ->
  2 <= n ->
  Py.len minibatch <= Py.len samples ->
  m <= n + 1 ->
  exists index_1 index_2,
    index_1 = choice_indices w (length minibatch) (Z.to_nat n) /\
    index_2 = choice_indices (World (heap w) (views w) (rng_seq w) (rng_pos w + Z.to_nat n))
                    (length samples) (Z.to_nat m) /\
    Py.len index_1 = n /\ Py.len index_2 = m /\
    Forall (fun i => 0 <= i < Py.len minibatch) index_1 /\
    Forall (fun j => 0 <= j < Py.len samples) index_2 /\
    run (Py.fast_energy_distance minibatch samples downsample) w
    = (inr (fed_value minibatch samples index_1 index_2),
       World (heap w) (views w) (rng_seq w) (rng_pos w + Z.to_nat n + Z.to_nat m)).
Proof.
  intros n m Hmb Hsm Hn HL Hm.
  assert (HL1 : (0 < length minibatch)%nat) by (unfold Py.len in *; lia).
  assert (HL2 : (0 < length samples)%nat) by (unfold Py.len in *; lia).
  assert (Hnm : n <= m) by (unfold Py.len in *; lia).
  set (w1 := World (heap w) (views w) (rng_seq w) (rng_pos w + Z.to_nat n)).
  set (w2 := World (heap w) (views w) (rng_seq w) (rng_pos w + Z.to_nat n + Z.to_nat m)).
  set (index_1 := choice_indices w (length minibatch) (Z.to_nat n)).
  set (index_2 := choice_indices w1 (length samples) (Z.to_nat m)).
  assert (Hl1 : Py.len index_1 = n)
    by (unfold Py.len, index_1; rewrite choice_indices_length; lia).
  assert (Hl2 : Py.len index_2 = m)
    by (unfold Py.len, index_2; rewrite choice_indices_length; lia).
  assert (Hb1 : Forall (fun i => 0 <= i < Py.len minibatch) index_1)
    by (apply choice_indices_bound; exact HL1).
  assert (Hb2 : Forall (fun j => 0 <= j < Py.len samples) index_2)
    by (apply choice_indices_bound; exact HL2).
  assert (Hb1' : Forall (fun i => 0 <= i < Py.len samples) index_1).
  { eapply Forall_impl; [exact Hb1 |]. simpl. intros i Hi. lia. }
  exists index_1, index_2. repeat (split; [assumption || reflexivity |]).
  unfold Py.fast_energy_distance. fold n. fold m.
  rewrite run_bind, run_call. simpl lib_h. unfold h_val.
  rewrite run_bind, run_call. unfold Py.len at 1.
  rewrite (choice_range w (length minibatch) n HL1) by lia. fold index_1. fold w1.
  rewrite run_bind, run_call. simpl lib_h. unfold h_val.
  rewrite run_bind, run_call. unfold Py.len at 1.
  rewrite (choice_range w1 (length samples) m HL2) by lia. fold index_2.
  change (World (heap w1) (views w1) (rng_seq w1) (rng_pos w1 + Z.to_nat m)) with w2.
  rewrite run_bind.
  rewrite (run_pair_loops n _
             (fun p => dist (row minibatch (zat index_1 (fst p)))
                            (row minibatch (zat index_1 (snd p))))).
  2:{ intros i j d Hij. apply in_pairs in Hij.
      apply (run_distance_step minibatch minibatch index_1 index_1 i j d c w2);
        auto; lia. }
  rewrite run_bind, run_truediv by nia.
  rewrite run_bind.
  rewrite (run_pair_loops m _
             (fun p => dist (row samples (zat index_1 (fst p)))
                            (row samples (zat index_2 (snd p))))).
  2:{ intros i j d Hij. apply in_pairs in Hij.
      apply (run_distance_step samples samples index_1 index_2 i j d c w2);
        auto; lia. }
  rewrite run_bind, run_truediv by nia.
  rewrite run_bind.
  rewrite (run_for_each_pure _ _
             (fun d i => fold_left (fun d j => fadd d (dist (row minibatch i) (row samples j)))
                                   index_2 d)).
  2:{ intros d i Hi. apply run_for_each_pure. intros d' j Hj.
      apply list_elem_of_In in Hi, Hj.
      eapply Forall_forall in Hb1; [| exact Hi].
      eapply Forall_forall in Hb2; [| exact Hj].
      destruct (row_lookup minibatch i c Hmb Hb1) as [Hra Hla].
      destruct (row_lookup samples j c Hsm Hb2) as [Hrb Hlb].
      rewrite run_bind, (run_getitem_Z minibatch i _ w2) by (lia || exact Hra).
      rewrite run_bind, (run_getitem_Z samples j _ w2) by (lia || exact Hrb).
      rewrite run_bind, run_euclidean_distance by lia. reflexivity. }
  rewrite run_bind, run_truediv by nia.
  simpl. f_equal. f_equal. unfold fed_value. rewrite Hl1, Hl2.
  unfold fsum. rewrite fold_left_flat_map.
  f_equal. f_equal. f_equal. f_equal.
  apply fold_left_same. intros a i. now rewrite fold_left_fmap.
Qed.


(** X5. fast_energy_distance raises ZeroDivisionError, after its two draws
    from the generator, whenever the minibatch subsample has a single row
    (a one-row minibatch, or downsample = 1), and also whenever the samples
    subsample has a single row: the divisors n*n - n and m*m - m are 0. *)
Theorem fast_energy_distance_single_row (minibatch samples : list (list F))
    (downsample : Z) (c : nat) (w : world F) :
  let n := Z.min (Py.len minibatch) downsample in
  let m := Z.min (Py.len samples) downsample in
  1 <= n -> 1 <= m ->
  n = 1 \/ (m = 1 /\ Forall (fun r => length r = c) minibatch) ->
  run (Py.fast_energy_distance minibatch samples downsample) w
  = (inl ZeroDivisionError,
     World (heap w) (views w) (rng_seq w) (rng_pos w + Z.to_nat n + Z.to_nat m)).
Proof.
  intros n m Hn Hm Hcase.
  assert (HL1 : (0 < length minibatch)%nat) by (unfold Py.len in *; lia).
  assert (HL2 : (0 < length samples)%nat) by (unfold Py.len in *; lia).
  set (w1 := World (heap w) (views w) (rng_seq w) (rng_pos w + Z.to_nat n)).
  set (w2 := World (heap w) (views w) (rng_seq w) (rng_pos w + Z.to_nat n + Z.to_nat m)).
  set (index_1 := choice_indices w (length minibatch) (Z.to_nat n)).
  set (index_2 := choice_indices w1 (length samples) (Z.to_nat m)).
  unfold Py.fast_energy_distance. fold n. fold m.
  rewrite run_bind, run_call. simpl lib_h. unfold h_val.
  rewrite run_bind, run_call. unfold Py.len at 1.
  rewrite (choice_range w (length minibatch) n HL1) by lia. fold index_1. fold w1.
  rewrite run_bind, run_call. simpl lib_h. unfold h_val.
  rewrite run_bind, run_call. unfold Py.len at 1.
  rewrite (choice_range w1 (length samples) m HL2) by lia. fold index_2.
  change (World (heap w1) (views w1) (rng_seq w1) (rng_pos w1 + Z.to_nat m)) with w2.
  destruct Hcase as [Hn1 | [Hm1 Hmb]].
  - rewrite Hn1. reflexivity.
  - assert (Hl1 : Py.len index_1 = n)
      by (unfold Py.len, index_1; rewrite choice_indices_length; lia).
    assert (Hb1 : Forall (fun i => 0 <= i < Py.len minibatch) index_1)
      by (apply choice_indices_bound; exact HL1).
    rewrite run_bind.
    rewrite (run_pair_loops n _
               (fun p => dist (row minibatch (zat index_1 (fst p)))
                              (row minibatch (zat index_1 (snd p))))).
    2:{ intros i j d Hij. apply in_pairs in Hij.
        apply (run_distance_step minibatch minibatch index_1 index_1 i j d c w2);
          auto; lia. }
    destruct (Z.eq_dec n 1) as [Hn1 | Hn1]; [rewrite Hn1; reflexivity |].
    rewrite run_bind, run_truediv by nia.
    rewrite Hm1. reflexivity.
Qed.

End Kernels.

(** ** In-place and elementwise functions *)

Section InPlace.
Context {F : Type} `{Scalar F}.





Lemma zip_sqrt_div (l k : list F) :
  zip_with fdiv l (map fsqrt (map (fadd EPSILON) k))
  = zip_with (fun a b => fdiv a (fsqrt (fadd EPSILON b))) l k.
Proof. now rewrite map_map, zip_with_fmap_r. Qed.

(** X7. In the python backend sqrt_div(x, y) on two float arrays (float32
    or float64) of the same shape returns a new array of that shape with the
    entries x / sqrt(EPSILON + y), float32 when both arrays are float32 and
    float64 otherwise, and leaves every array of the caller, x and y
    included, as it was. *)
Theorem py_sqrt_div_result (x y : tref) (tx ty : tensor F) (wd : world F) :
  heap wd !! x = Some tx ->
  heap wd !! y = Some ty ->
  t_shape tx = t_shape ty ->
  is_float (t_dtype tx) ->
  is_float (t_dtype ty) ->
  exists r wd',
    run (Py.sqrt_div x y) wd = (inr r, wd') /\
    (length (heap wd) <= r)%nat /\
    heap wd' !! r = Some (Tensor (float_result (t_dtype tx) (t_dtype ty)) (t_shape tx)
                            (sqrt_div_data tx ty)) /\
    take (length (heap wd)) (heap wd') = heap wd.
Proof.
  intros Hx Hy Hs Hfx Hfy.
  assert (Hlx : (x < length (heap wd))%nat) by (eapply lookup_lt_Some; eauto).
  assert (Hly : (y < length (heap wd))%nat) by (eapply lookup_lt_Some; eauto).
  set (z := tmap (fadd EPSILON) ty).
  set (res := Tensor (float_result (t_dtype tx) (t_dtype ty)) (t_shape tx)
                (sqrt_div_data tx ty)).
  assert (E1 : lib_h (np_radd_scalar EPSILON y) wd
               = (inr (length (heap wd)), set_heap wd (heap wd ++ [z]))).
  { simpl. unfold load. rewrite Hy. reflexivity. }
  assert (E2 : lib_h (ne_evaluate Py.sqrt_div_expr
                        [("x"%string, OArray x); ("y"%string, OArray y);
                         ("z"%string, OArray (length (heap wd)))] None)
                     (set_heap wd (heap wd ++ [z]))
               = (inr (length (heap wd ++ [z])), set_heap wd ((heap wd ++ [z]) ++ [res]))).
  { simpl. unfold h_ne_evaluate. cbn -[decide]. unfold load. cbn -[decide].
    rewrite lookup_app_l by exact Hlx. rewrite Hx. cbn -[decide].
    rewrite lookup_alloc. cbn -[decide].
    unfold div_sqrt. cbn -[decide]. rewrite decide_True by exact Hs. cbn.
    unfold set_heap, res, sqrt_div_data. simpl. rewrite zip_sqrt_div.
    destruct Hfx as [-> | ->], Hfy as [-> | ->]; reflexivity. }
  exists (length (heap wd ++ [z])), (set_heap wd ((heap wd ++ [z]) ++ [res])).
  split; [| split; [| split]].
  - unfold Py.sqrt_div. rewrite run_bind, run_call, E1. now rewrite run_call, E2.
  - rewrite length_app. lia.
  - simpl. apply lookup_alloc.
  - simpl. rewrite <- app_assoc. apply take_app_length.
Qed.



(** X10. zeros_like(t) and ones_like(t) return, in both backends alike, a
    new float32 array with the shape of t, whatever the element type of t,
    holding as many entries as the shape says, all 0 (all 1); the arrays of
    the caller are left as they were. *)
Theorem zeros_like_ones_like_result (t : tref) (a : tensor F) (wd : world F) :
  heap wd !! t = Some a ->
  let z := full Float32 (t_shape a) fzero in
  let o := full Float32 (t_shape a) fone in
  run (Py.zeros_like t) wd = (inr (length (heap wd)), set_heap wd (heap wd ++ [z])) /\
  run (Torch.zeros_like t) wd = (inr (length (heap wd)), set_heap wd (heap wd ++ [z])) /\
  run (Py.ones_like t) wd = (inr (length (heap wd)), set_heap wd (heap wd ++ [o])) /\
  run (Torch.ones_like t) wd = (inr (length (heap wd)), set_heap wd (heap wd ++ [o])) /\
  wf_tensor z /\ wf_tensor o /\
  Forall (fun v => v = fzero) (t_data z) /\ Forall (fun v => v = fone) (t_data o).
Proof.
  intros Ht z o.
  assert (Hsh : lib_h (np_shape t) wd = (inr (t_shape a), wd))
    by (simpl; unfold load; now rewrite Ht).
  assert (Hsz : lib_h (torch_size t) wd = (inr (t_shape a), wd))
    by (simpl; unfold load; now rewrite Ht).
  repeat split.
  - unfold Py.zeros_like, Py.shape, Py.zeros. rewrite run_bind, run_call, Hsh.
    cbv beta iota. now rewrite run_call.
  - unfold Torch.zeros_like, Torch.shape, Torch.zeros.
    rewrite !run_bind, run_call, Hsz. reflexivity.
  - unfold Py.ones_like, Py.shape, Py.ones. rewrite run_bind, run_call, Hsh.
    cbv beta iota. now rewrite run_call.
  - unfold Torch.ones_like, Torch.shape, Torch.ones.
    rewrite !run_bind, run_call, Hsz. reflexivity.
  - unfold wf_tensor, z, full. simpl. apply length_replicate.
  - unfold wf_tensor, o, full. simpl. apply length_replicate.
  - unfold z, full. simpl. apply Forall_forall. intros v Hv.
    now apply elem_of_replicate in Hv as [-> _].
  - unfold o, full. simpl. apply Forall_forall. intros v Hv.
    now apply elem_of_replicate in Hv as [-> _].
Qed.
End InPlace.

(** ** Matrices *)

Section Matrices.
Context {F : Type} `{Scalar F}.

Lemma concat_chunks (k n : nat) (d : list F) :
  length d = (k * n)%nat -> concat (chunks k n d) = d.
Proof.
  revert d. induction k as [| k IH]; intros d Hd; simpl.
  - destruct d; [reflexivity | discriminate].
  - rewrite IH by (rewrite length_drop; lia). apply take_drop.
Qed.

Lemma map_nth_seq {A} (d : A) (l : list A) :
  map (fun j => nth j l d) (seq 0 (length l)) = l.
Proof.
  induction l as [| x l IH]; simpl; [reflexivity |].
  f_equal. rewrite <- seq_shift, map_map. exact IH.
Qed.

Lemma length_cols (m : nat) (rows : list (list F)) : length (cols m rows) = m.
Proof. unfold cols. now rewrite length_map, length_seq. Qed.

Lemma cols_lengths (m : nat) (rows : list (list F)) :
  Forall (fun c => length c = length rows) (cols m rows).
Proof.
  apply Forall_forall. intros c Hc. apply list_elem_of_In in Hc.
  unfold cols in Hc. apply in_map_iff in Hc as [j [<- _]]. apply length_map.
Qed.

Lemma cols_cols (n m : nat) (rows : list (list F)) :
  length rows = n -> Forall (fun r => length r = m) rows ->
  cols n (cols m rows) = rows.
Proof.
  intros Hn Hm. unfold cols at 1.
  transitivity (map (fun i => nth i rows []) (seq 0 n));
    [| rewrite <- Hn; apply map_nth_seq].
  apply map_ext_in. intros i Hi. apply in_seq in Hi.
  unfold cols. rewrite map_map.
  assert (Hrow : length (nth i rows []) = m).
  { eapply Forall_forall in Hm; [exact Hm |]. apply list_elem_of_In, nth_In. lia. }
  transitivity (map (fun j => nth j (nth i rows []) fzero) (seq 0 m));
    [| rewrite <- Hrow; apply map_nth_seq].
  apply map_ext. intros j.
  rewrite <- (map_nth (fun r : list F => nth j r fzero) rows [] i).
  apply nth_indep. rewrite length_map. lia.
Qed.

Lemma transpose2_twice (a : tensor F) (n m : nat) :
  t_shape a = [n; m] -> wf_tensor a ->
  res_bind (transpose2 a) transpose2 = inr a.
Proof.
  intros Hs Hwf. unfold wf_tensor in Hwf. rewrite Hs in Hwf. simpl in Hwf.
  rewrite Nat.mul_1_r in Hwf.
  unfold transpose2 at 1. rewrite Hs. simpl res_bind. unfold transpose2. simpl.
  set (rows := chunks n m (t_data a)).
  assert (Hc : chunks m n (concat (cols m rows)) = cols m rows).
  { apply chunks_concat; [apply length_cols |].
    eapply Forall_impl; [apply cols_lengths |]. simpl. intros c Hc.
    unfold rows in Hc. now rewrite Hc, length_chunks. }
  rewrite Hc, (cols_cols n m rows) by
    (unfold rows; first [apply length_chunks | now apply chunks_lengths]).
  unfold rows. rewrite concat_chunks by exact Hwf.
  destruct a as [dt s d]. simpl in *. now subst s.
Qed.

(** X11. Transposing a matrix twice gives the matrix back: in both backends
    transpose(transpose(t)) is a new array with the shape and the entries
    of t, and the arrays of the caller are left as they were. *)
Theorem transpose_twice (t : tref) (a : tensor F) (n m : nat) (w : world F) :
  heap w !! t = Some a ->
  t_shape a = [n; m] ->
  wf_tensor a ->
  (exists r w', run (let* u := Py.transpose t in Py.transpose u) w = (inr r, w') /\
                (length (heap w) <= r)%nat /\
                heap w' !! r = Some a /\
                take (length (heap w)) (heap w') = heap w) /\
  (exists r w', run (let* u := Torch.transpose t in Torch.transpose u) w = (inr r, w') /\
                (length (heap w) <= r)%nat /\
                heap w' !! r = Some a /\
                take (length (heap w)) (heap w') = heap w).
Proof.
  intros Ht Hs Hwf.
  pose proof (transpose2_twice a n m Hs Hwf) as Htw.
  destruct (transpose2 a) as [e | u] eqn:Hu; [discriminate Htw |]. simpl in Htw.
  assert (Hsu : t_shape u = [m; n])
    by (unfold transpose2 in Hu; rewrite Hs in Hu; injection Hu as <-; reflexivity).
  assert (N1 : exists w1, lib_h (np_transpose t) w = (inr (length (heap w)), w1) /\
                          heap w1 = heap w ++ [u]).
  { eexists. split.
    - simpl. unfold load. rewrite Ht. simpl.
      unfold np_transpose_sem. rewrite Hs, Hu. reflexivity.
    - reflexivity. }
  assert (N2 : forall w1, heap w1 = heap w ++ [u] ->
               exists w2, lib_h (np_transpose (length (heap w))) w1
                          = (inr (length (heap w1)), w2) /\
                          heap w2 = heap w1 ++ [a]).
  { intros w1 Hw1. eexists. split.
    - simpl. unfold load.
      rewrite Hw1, lookup_alloc. simpl. unfold np_transpose_sem.
      rewrite Hsu, Htw. simpl. rewrite <- Hw1. reflexivity.
    - simpl. now rewrite Hw1. }
  assert (T1 : exists w1, lib_h (torch_t t) w = (inr (length (heap w)), w1) /\
                          heap w1 = heap w ++ [u]).
  { eexists. split.
    - simpl. unfold load. rewrite Ht. simpl. rewrite Hu. reflexivity.
    - reflexivity. }
  assert (T2 : forall w1, heap w1 = heap w ++ [u] ->
               exists w2, lib_h (torch_t (length (heap w))) w1
                          = (inr (length (heap w1)), w2) /\
                          heap w2 = heap w1 ++ [a]).
  { intros w1 Hw1. eexists. split.
    - simpl. unfold load.
      rewrite Hw1, lookup_alloc. simpl. rewrite Htw. simpl. rewrite <- Hw1. reflexivity.
    - simpl. now rewrite Hw1. }
  split.
  - destruct N1 as [w1 [E1 Hw1]]. destruct (N2 w1 Hw1) as [w2 [E2 Hw2]].
    exists (length (heap w1)), w2. split; [| split; [| split]].
    + unfold Py.transpose. rewrite run_bind, run_call, E1. cbv beta iota.
      now rewrite run_call, E2.
    + rewrite Hw1, length_app. lia.
    + rewrite Hw2. apply lookup_alloc.
    + rewrite Hw2, Hw1, <- app_assoc. apply take_app_length.
  - destruct T1 as [w1 [E1 Hw1]]. destruct (T2 w1 Hw1) as [w2 [E2 Hw2]].
    exists (length (heap w1)), w2. split; [| split; [| split]].
    + unfold Torch.transpose. rewrite run_bind, run_call, E1. cbv beta iota.
      now rewrite run_call, E2.
    + rewrite Hw1, length_app. lia.
    + rewrite Hw2. apply lookup_alloc.
    + rewrite Hw2, Hw1, <- app_assoc. apply take_app_length.
Qed.


Lemma lookup_cols (m j : nat) (rows : list (list F)) :
  (j < m)%nat -> cols m rows !! j = Some (map (fun r => nth j r fzero) rows).
Proof.
  intros Hj. unfold cols. rewrite list_lookup_fmap, lookup_seq_lt by exact Hj. reflexivity.
Qed.

(** X12. In the python backend, for an L x N matrix vis and an L x M matrix
    hid, batch_outer(vis, hid) returns a new N x M matrix with N*M entries
    whose entry (j, k) is the sum over the rows i of vis[i][j] * hid[i][k],
    that is the sum of the outer products of the rows; the arrays of the
    caller are left as they were. *)
Theorem batch_outer_entries (vis hid : tref) (V Hd : tensor F) (L N M : nat)
    (w : world F) :
  heap w !! vis = Some V ->
  heap w !! hid = Some Hd ->
  t_shape V = [L; N] ->
  t_shape Hd = [L; M] ->
  exists R,
    returns_new w (run (py_call (OBatchOuter vis hid)) w) R /\
    t_shape R = [N; M] /\ wf_tensor R /\
    forall j k, (j < N)%nat -> (k < M)%nat ->
      exists rowj, rows_of R !! j = Some rowj /\
                   rowj !! k = Some (dotv (column j V) (column k Hd)).
Proof.
  intros Hvis Hhid HsV HsH.
  assert (Hlh : (hid < length (heap w))%nat) by (eapply lookup_lt_Some; eauto).
  set (rowsV := chunks L N (t_data V)).
  set (bc := cols M (chunks L M (t_data Hd))).
  set (vt := Tensor (t_dtype V) [N; L] (concat (cols N rowsV))).
  set (rowsR := map (fun r => map (dotv r) bc) (cols N rowsV)).
  set (R := Tensor (t_dtype V) [N; M] (concat rowsR)).
  assert (HlenR : length rowsR = N) by (unfold rowsR; now rewrite length_map, length_cols).
  assert (HR : Forall (fun r => length r = M) rowsR).
  { apply Forall_forall. intros r Hr. apply list_elem_of_fmap in Hr as [c [-> _]].
    unfold bc. now rewrite length_map, length_cols. }
  assert (Hvt : chunks N L (concat (cols N rowsV)) = cols N rowsV).
  { apply chunks_concat; [apply length_cols |].
    eapply Forall_impl; [apply cols_lengths |]. simpl. intros c Hc.
    unfold rowsV in Hc. now rewrite Hc, length_chunks. }
  set (w1 := World (heap w ++ [vt])
                    ((length (heap w), (owner w vis, negb (reversed w vis))) :: views w)
                    (rng_seq w) (rng_pos w)).
  assert (E1 : lib_h (np_transpose vis) w = (inr (length (heap w)), w1)).
  { simpl. unfold load. rewrite Hvis. simpl. unfold np_transpose_sem, transpose2.
    rewrite HsV. reflexivity. }
  assert (E2 : lib_h (np_dot (length (heap w)) hid) w1
               = (inr (length (heap w ++ [vt])), set_heap w1 ((heap w ++ [vt]) ++ [R]))).
  { simpl. unfold load. simpl. rewrite lookup_alloc. simpl.
    rewrite lookup_app_l by exact Hlh. rewrite Hhid. simpl.
    unfold matmul. simpl. rewrite HsH. rewrite decide_True by reflexivity.
    simpl. rewrite Hvt. reflexivity. }
  exists R. split; [| split; [| split]].
  - exists (length (heap w ++ [vt])), (set_heap w1 ((heap w ++ [vt]) ++ [R])).
    split; [| split; [| split]].
    + unfold py_call. rewrite run_ret_with. unfold Py.batch_outer.
      rewrite run_bind, run_call, E1. cbv beta iota. now rewrite run_call, E2.
    + rewrite length_app. lia.
    + simpl. apply lookup_alloc.
    + simpl. rewrite <- app_assoc. apply take_app_length.
  - reflexivity.
  - unfold wf_tensor, R. simpl.
    rewrite (length_concat_uniform N M rowsR HlenR HR). lia.
  - intros j k Hj Hk. unfold rows_of, R. simpl.
    rewrite (chunks_concat N M rowsR HlenR HR).
    unfold rowsR. rewrite list_lookup_fmap, (lookup_cols N j rowsV Hj). simpl.
    eexists. split; [reflexivity |].
    rewrite list_lookup_fmap. unfold bc. rewrite (lookup_cols M k _ Hk). simpl.
    unfold column, rows_of. now rewrite HsV, HsH.
Qed.






End Matrices.

(** ** Which array object an operation overwrites *)

Section Frame.

Context {F : Type} `{Scalar F}.

Lemma frame_inv_refl (w : world F) (z : tref) : frame_inv w w z.
Proof. repeat split; auto. Qed.

Lemma owner_new_view (w : world F) (n b v : tref) (r : bool) (h : list (tensor F)) :
  (v < n)%nat ->
  owner (World h ((n, (b, r)) :: views w) (rng_seq w) (rng_pos w)) v = owner w v.
Proof.
  intros Hv. unfold owner. simpl.
  destruct (Nat.eqb_spec n v) as [-> | _]; [lia | reflexivity].
Qed.

Lemma frame_inv_same (w0 w w' : world F) (z : tref) :
  heap w' = heap w -> views w' = views w -> frame_inv w0 w z -> frame_inv w0 w' z.
Proof.
  intros Hh Hv [Hlen [Hown Hlook]]. unfold frame_inv, owner in *.
  rewrite Hh, Hv. auto.
Qed.

Lemma frame_inv_alloc (w0 w : world F) (z : tref) (l : list (tensor F)) :
  (z < length (heap w0))%nat ->
  frame_inv w0 w z -> frame_inv w0 (set_heap w (heap w ++ l)) z.
Proof.
  intros Hz [Hlen [Hown Hlook]]. split; [| split]; simpl.
  - rewrite length_app. lia.
  - exact Hown.
  - now rewrite lookup_app_l by lia.
Qed.

(** One library call that overwrites nothing but the target keeps the
    caller's object [z] as it is. *)
Lemma lib_h_frame {X} (ev : lib F X) (t : option tref) (w0 w : world F) (z : tref) :
  writes_outside t X ev = false ->
  (z < length (heap w0))%nat ->
  separate_from w0 z t ->
  frame_inv w0 w z ->
  frame_inv w0 (snd (lib_h ev w)) z.
Proof.
  intros Hw Hz Hsep Hinv.
  assert (Hnew : forall (r : res (tensor F)), frame_inv w0 (snd (h_new w r)) z).
  { intros [e | a]; simpl; [exact Hinv |]. now apply frame_inv_alloc. }
  assert (Hview : forall x (r : res (tensor F)), frame_inv w0 (snd (h_view w x r)) z).
  { intros x [e | a]; simpl; [exact Hinv |].
    destruct Hinv as [Hlen [Hown Hlook]]. split; [| split]; simpl.
    - rewrite length_app. lia.
    - intros v Hv. rewrite owner_new_view by lia. now apply Hown.
    - now rewrite lookup_app_l by lia. }
  assert (Hset : forall x (r : res (tensor F)),
             ev_target ev = Some x -> frame_inv w0 (snd (h_set w x r)) z).
  { intros x [e | a] Hx; simpl; [exact Hinv |].
    unfold writes_outside in Hw. rewrite Hx in Hw.
    destruct t as [y |]; [| discriminate].
    apply negb_false_iff, Nat.eqb_eq in Hw. subst y.
    destruct Hsep as [Hxl Hns]. destruct Hinv as [Hlen [Hown Hlook]].
    split; [| split]; simpl.
    - now rewrite length_stored.
    - exact Hown.
    - rewrite lookup_stored_ne; [exact Hlook |].
      unfold shares. rewrite (Hown z Hz), (Hown x Hxl). exact Hns. }
  destruct ev; simpl in Hset |- *; unfold h_val; simpl;
    try exact Hinv;
    try apply Hnew;
    try apply Hview;
    try (apply Hset; reflexivity);
    try (apply frame_inv_alloc; assumption).
  - unfold h_random_choice. repeat case_match; simpl; try exact Hinv;
      now apply (frame_inv_same w0 w).
  - unfold h_ne_evaluate. destruct (ne_eval w env e) as [err | v]; simpl;
      [exact Hinv |].
    destruct out as [x |]; [apply Hset; reflexivity |].
    apply (Hnew (inr (bval_tensor v))).
  - unfold with_t. destruct (load w x) as [e | a]; simpl; [exact Hinv |].
    repeat case_match; simpl; try exact Hinv.
    now apply frame_inv_alloc.
Qed.

Lemma run_frame {A} (p : prog (lib F) A) (t : option tref) (w0 : world F) (z : tref) :
  rng_free_with (writes_outside t) p ->
  (z < length (heap w0))%nat ->
  separate_from w0 z t ->
  forall w, frame_inv w0 w z -> frame_inv w0 (snd (run p w)) z.
Proof.
  intros Hp Hz Hsep.
  induction Hp as [a | e | X ev k Hev Hk IH]; intros w Hinv; simpl; auto.
  pose proof (lib_h_frame ev t w0 w z Hev Hz Hsep Hinv) as Hstep.
  destruct (lib_h ev w) as [[e | x] w'] eqn:Hh; simpl in *; [exact Hstep |].
  now apply IH.
Qed.

Lemma rng_free_truediv (rnd : forall X, lib F X -> bool) (x : F) (d : Z) :
  rng_free_with rnd (Py.truediv x d).
Proof. unfold Py.truediv. case_match; constructor. Qed.

Ltac frame_tac :=
  repeat first
    [ apply rng_free_ret | apply rng_free_throw | apply rng_free_truediv
    | apply rng_free_for_each; intros
    | apply rng_free_getitem
    | apply rng_free_bind; [| intros]
    | apply rng_free_vis;
      [unfold writes_outside; simpl; rewrite ?Nat.eqb_refl; reflexivity | intros] ].

Lemma py_call_writes (o : op F) :
  rng_free_with (writes_outside (py_target o)) (py_call o).
Proof.
  destruct o;
    unfold py_call, ret_with, Py.euclidean_distance, Py.squared_euclidean_distance,
      Py.fast_energy_distance;
    simpl py_target; frame_tac.
Qed.

Lemma torch_call_writes (o : op F) :
  rng_free_with (writes_outside (torch_target o)) (torch_call o).
Proof.
  destruct o; try destruct axis;
    unfold torch_call, ret_with, Torch.mean, Torch.var, Torch.std, Torch.tsum,
      Torch.tprod, Torch.tany, Torch.tall, Torch.tmax, Torch.tmin, Torch.reduce_with;
    simpl torch_target; frame_tac.
Qed.

(** X15. Running an operation of either backend leaves an array object z
    of the caller as it was, unless the operation updates an argument in
    place and z shares memory with that argument.  The arguments updated in
    place are x of mix_inplace and of square_mix_inplace in both backends,
    and x of sqrt_div in the pytorch backend only; the argument is taken to
    be an array object of the caller. *)
Theorem operations_touch_only_target (o : op F) (w : world F) (z : tref) :
  (z < length (heap w))%nat ->
  (separate_from w z (py_target o) ->
   heap (snd (run (py_call o) w)) !! z = heap w !! z) /\
  (separate_from w z (torch_target o) ->
   heap (snd (run (torch_call o) w)) !! z = heap w !! z).
Proof.
  intros Hz. split; intros Hsep.
  - apply (run_frame (py_call o) (py_target o) w z (py_call_writes o) Hz Hsep w),
      frame_inv_refl.
  - apply (run_frame (torch_call o) (torch_target o) w z (torch_call_writes o) Hz Hsep w),
      frame_inv_refl.
Qed.

End Frame.

(** ** The results above on concrete arrays *)

Lemma squared_euclidean_distance_value_witness :
  run (Py.squared_euclidean_distance [1; 2]%R [3; 5; 7]%R) store1
  = (inr (fsum (zip_with sqdiff [1; 2]%R [3; 5; 7]%R)), store1).
Proof.
  apply (@squared_euclidean_distance_value R R_scalar [1; 2]%R [3; 5; 7]%R store1).
  simpl. lia.
Defined.

Lemma euclidean_distance_value_witness :
  run (Py.euclidean_distance [1; 2]%R [3; 5; 7]%R) store1
  = (inr (dist [1; 2]%R [3; 5; 7]%R), store1).
Proof.
  apply (@euclidean_distance_value R R_scalar [1; 2]%R [3; 5; 7]%R store1).
  simpl. lia.
Defined.

Lemma euclidean_distance_symmetric_witness :
  run (Py.euclidean_distance [1; 2]%R [3; 5]%R) store1
  = run (Py.euclidean_distance [3; 5]%R [1; 2]%R) store1.
Proof.
  apply (@euclidean_distance_symmetric R R_scalar [1; 2]%R [3; 5]%R store1).
  - intros x y. simpl. ring.
  - reflexivity.
Defined.

Lemma fast_energy_distance_value_witness :
  exists index_1 index_2,
    index_1 = choice_indices (draws [1; 0; 0; 1]%nat) 2 2 /\
    index_2 = choice_indices (World (heap (draws [1; 0; 0; 1]%nat)) (views (draws [1; 0; 0; 1]%nat))
          (rng_seq (draws [1; 0; 0; 1]%nat)) 2) 2 2 /\
    Py.len index_1 = 2 /\ Py.len index_2 = 2 /\
    Forall (fun i => 0 <= i < 2) index_1 /\
    Forall (fun j => 0 <= j < 2) index_2 /\
    run (Py.fast_energy_distance [[0]; [4]]%R [[0]; [1]]%R 2) (draws [1; 0; 0; 1]%nat)
    = (inr (fed_value [[0]; [4]]%R [[0]; [1]]%R index_1 index_2),
       World (heap (draws [1; 0; 0; 1]%nat)) (views (draws [1; 0; 0; 1]%nat))
          (rng_seq (draws [1; 0; 0; 1]%nat)) 4).
Proof.
  apply (@fast_energy_distance_value R R_scalar [[0]; [4]]%R [[0]; [1]]%R 2 1%nat
           (draws [1; 0; 0; 1]%nat)).
  - repeat constructor.
  - repeat constructor.
  - unfold Py.len. simpl. lia.
  - unfold Py.len. simpl. lia.
  - unfold Py.len. simpl. lia.
Defined.

Lemma fast_energy_distance_single_row_witness :
  run (Py.fast_energy_distance [[0]]%R [[0]; [1]]%R 2) (draws [0; 0; 1]%nat)
  = (inl ZeroDivisionError, World (heap (draws [0; 0; 1]%nat)) (views (draws [0; 0; 1]%nat))
          (rng_seq (draws [0; 0; 1]%nat)) 3).
Proof.
  apply (@fast_energy_distance_single_row R R_scalar [[0]]%R [[0]; [1]]%R 2 1%nat
           (draws [0; 0; 1]%nat)).
  - unfold Py.len. simpl. lia.
  - unfold Py.len. simpl. lia.
  - left. reflexivity.
Defined.



Lemma py_sqrt_div_result_witness :
  exists r wd',
    run (Py.sqrt_div 0%nat 1%nat) store2 = (inr r, wd') /\
    (length (heap store2) <= r)%nat /\
    heap wd' !! r = Some (Tensor Float32 [2; 2]%nat
                            (sqrt_div_data (m22 1 2 3 4) (m22 1 0 0 1))) /\
    take (length (heap store2)) (heap wd') = heap store2.
Proof.
  apply (@py_sqrt_div_result R R_scalar 0%nat 1%nat (m22 1 2 3 4) (m22 1 0 0 1) store2).
  - reflexivity.
  - reflexivity.
  - reflexivity.
  - left. reflexivity.
  - left. reflexivity.
Defined.



Lemma zeros_like_ones_like_result_witness :
  run (Py.zeros_like 0%nat) store2
  = (inr 2%nat, set_heap store2 (heap store2 ++ [full Float32 [2; 2]%nat 0%R])) /\
  run (Torch.zeros_like 0%nat) store2
  = (inr 2%nat, set_heap store2 (heap store2 ++ [full Float32 [2; 2]%nat 0%R])) /\
  run (Py.ones_like 0%nat) store2
  = (inr 2%nat, set_heap store2 (heap store2 ++ [full Float32 [2; 2]%nat 1%R])) /\
  run (Torch.ones_like 0%nat) store2
  = (inr 2%nat, set_heap store2 (heap store2 ++ [full Float32 [2; 2]%nat 1%R])) /\
  wf_tensor (full Float32 [2; 2]%nat 0%R) /\ wf_tensor (full Float32 [2; 2]%nat 1%R) /\
  Forall (fun v => v = 0%R) (t_data (full Float32 [2; 2]%nat 0%R)) /\
  Forall (fun v => v = 1%R) (t_data (full Float32 [2; 2]%nat 1%R)).
Proof.
  apply (@zeros_like_ones_like_result R R_scalar 0%nat (m22 1 2 3 4) store2). reflexivity.
Defined.

Lemma transpose_twice_witness :
  (exists r w', run (let* u := Py.transpose 0%nat in Py.transpose u) store2 = (inr r, w') /\
                (length (heap store2) <= r)%nat /\
                heap w' !! r = Some (m22 1 2 3 4) /\
                take (length (heap store2)) (heap w') = heap store2) /\
  (exists r w', run (let* u := Torch.transpose 0%nat in Torch.transpose u) store2
                = (inr r, w') /\
                (length (heap store2) <= r)%nat /\
                heap w' !! r = Some (m22 1 2 3 4) /\
                take (length (heap store2)) (heap w') = heap store2).
Proof.
  apply (@transpose_twice R R_scalar 0%nat (m22 1 2 3 4) 2%nat 2%nat store2); reflexivity.
Defined.

Lemma batch_outer_entries_witness :
  exists T,
    returns_new store2 (run (py_call (OBatchOuter 0%nat 1%nat)) store2) T /\
    t_shape T = [2; 2]%nat /\ wf_tensor T /\
    forall j k, (j < 2)%nat -> (k < 2)%nat ->
      exists rowj, rows_of T !! j = Some rowj /\
                   rowj !! k = Some (dotv (column j (m22 1 2 3 4)) (column k (m22 1 0 0 1))).
Proof.
  apply (@batch_outer_entries R R_scalar 0%nat 1%nat (m22 1 2 3 4) (m22 1 0 0 1)
           2%nat 2%nat 2%nat store2); reflexivity.
Defined.



Lemma operations_touch_only_target_witness :
  heap (snd (run (py_call (OMixInplace 2%R 0%nat 1%nat)) store2)) !! 1%nat
  = heap store2 !! 1%nat /\
  heap (snd (run (torch_call (OSqrtDiv 0%nat 1%nat)) store2)) !! 1%nat
  = heap store2 !! 1%nat.
Proof.
  split.
  - apply (@operations_touch_only_target R R_scalar (OMixInplace 2%R 0%nat 1%nat)
             store2 1%nat).
    + simpl. lia.
    + split; [simpl; lia | intros Hs; vm_compute in Hs; discriminate Hs].
  - apply (@operations_touch_only_target R R_scalar (OSqrtDiv 0%nat 1%nat)
             store2 1%nat).
    + simpl. lia.
    + split; [simpl; lia | intros Hs; vm_compute in Hs; discriminate Hs].
Defined.
